(** * SDL GPU WebXR support: session state machine and frame marshaller

    A shallow embedding of [src/gpu/xr/SDL_gpu_webxr.c] (the Emscripten
    build) together with the properties of its session life cycle, of its
    mode-support cache and of [SDL_WebXR_BeginFrame].

    The C module keeps three pieces of module-level state ([g_session],
    [g_mode_supported] and, through [SDL_SetError], the last error message)
    and one heap object, the session.  They are gathered in the record
    [World] and every function of the module is a computation in a small
    state-and-fault monad over it.  The JavaScript side is an opaque
    collaborator: what it answers during one synchronous call is the record
    [Env], and the commands sent to it are appended to a trace.

    Beyond the entry points themselves the development covers the helper
    functions, the stub build for other platforms, and the part of
    [test/webxr_test.c] that drives the module, with invariants of every
    run of the module and of the test program. *)

From Stdlib Require Import ZArith Ascii String List Lia.
From stdpp Require Import gmap strings list fin_maps.

Local Open Scope Z_scope.

(* ===================================================================== *)
(** ** Data model (SDL_webxr.h) *)
(* ===================================================================== *)

(** C enumerations are [int]s; the module compares them with integer
    constants and casts integers received from the environment to them, so
    they are kept as integers.  Every [int] of the module is only compared,
    copied or used as a loop index below 2, hence no arithmetic can wrap
    and [Z] stands for [int] as it is. *)

Definition SDL_WebXRSessionMode := Z.
Definition SDL_WEBXR_SESSION_INLINE : SDL_WebXRSessionMode := 0.
Definition SDL_WEBXR_SESSION_IMMERSIVE_VR : SDL_WebXRSessionMode := 1.
Definition SDL_WEBXR_SESSION_IMMERSIVE_AR : SDL_WebXRSessionMode := 2.

Definition SDL_WebXRReferenceSpaceType := Z.
Definition SDL_WEBXR_REFSPACE_VIEWER : SDL_WebXRReferenceSpaceType := 0.
Definition SDL_WEBXR_REFSPACE_LOCAL : SDL_WebXRReferenceSpaceType := 1.
Definition SDL_WEBXR_REFSPACE_LOCAL_FLOOR : SDL_WebXRReferenceSpaceType := 2.
Definition SDL_WEBXR_REFSPACE_BOUNDED_FLOOR : SDL_WebXRReferenceSpaceType := 3.
Definition SDL_WEBXR_REFSPACE_UNBOUNDED : SDL_WebXRReferenceSpaceType := 4.

Definition SDL_WebXRSessionState := Z.
Definition SDL_WEBXR_STATE_IDLE : SDL_WebXRSessionState := 0.
Definition SDL_WEBXR_STATE_REQUESTING : SDL_WebXRSessionState := 1.
Definition SDL_WEBXR_STATE_READY : SDL_WebXRSessionState := 2.
Definition SDL_WEBXR_STATE_RUNNING : SDL_WebXRSessionState := 3.
Definition SDL_WEBXR_STATE_VISIBLE : SDL_WebXRSessionState := 4.
Definition SDL_WEBXR_STATE_VISIBLE_BLURRED : SDL_WebXRSessionState := 5.
Definition SDL_WEBXR_STATE_ENDED : SDL_WebXRSessionState := 6.

(** A [float] or [double] is only ever copied or cleared by [SDL_memset];
    it is represented by its IEEE bit pattern, so that the cleared value is
    the pattern [0]. *)
Definition float := Z.
Definition double := Z.

(** [float m[16]] cleared by [SDL_memset(m, 0, sizeof(m))]. *)
Definition zero_matrix : list float := repeat 0 16.

Record SDL_WebXRView := mkView {
  projectionMatrix : list float;
  viewMatrix : list float;
  viewportX : Z;
  viewportY : Z;
  viewportWidth : Z;
  viewportHeight : Z
}.

Record SDL_WebXRFrame := mkFrame {
  predictedDisplayTime : double;
  viewCount : Z;
  views : list SDL_WebXRView
}.

(** [struct SDL_WebXRSession]; [refSpaceTypeString] is a [char[32]]. *)
Record SDL_WebXRSession := mkSession {
  mode : SDL_WebXRSessionMode;
  refSpaceType : SDL_WebXRReferenceSpaceType;
  state : SDL_WebXRSessionState;
  refSpaceTypeString : list ascii;
  initialized : bool
}.

Definition NUL : ascii := Ascii.zero.

(** [sizeof(g_session->refSpaceTypeString)] *)
Definition REFSPACE_STRING_SIZE : nat := 32.

(** The object [SDL_calloc(1, sizeof(SDL_WebXRSession))] returns: every
    byte is zero. *)
Definition zeroed_session : SDL_WebXRSession :=
  {| mode := 0; refSpaceType := 0; state := 0;
     refSpaceTypeString := repeat NUL REFSPACE_STRING_SIZE;
     initialized := false |}.

(** Field assignments. *)
Definition set_mode (v : Z) (s : SDL_WebXRSession) : SDL_WebXRSession :=
  {| mode := v; refSpaceType := refSpaceType s; state := state s;
     refSpaceTypeString := refSpaceTypeString s; initialized := initialized s |}.
Definition set_refSpaceType (v : Z) (s : SDL_WebXRSession) : SDL_WebXRSession :=
  {| mode := mode s; refSpaceType := v; state := state s;
     refSpaceTypeString := refSpaceTypeString s; initialized := initialized s |}.
Definition set_state (v : Z) (s : SDL_WebXRSession) : SDL_WebXRSession :=
  {| mode := mode s; refSpaceType := refSpaceType s; state := v;
     refSpaceTypeString := refSpaceTypeString s; initialized := initialized s |}.
Definition set_refSpaceTypeString (v : list ascii) (s : SDL_WebXRSession)
  : SDL_WebXRSession :=
  {| mode := mode s; refSpaceType := refSpaceType s; state := state s;
     refSpaceTypeString := v; initialized := initialized s |}.
Definition set_initialized (v : bool) (s : SDL_WebXRSession) : SDL_WebXRSession :=
  {| mode := mode s; refSpaceType := refSpaceType s; state := state s;
     refSpaceTypeString := refSpaceTypeString s; initialized := v |}.

Definition set_projectionMatrix (m : list float) (v : SDL_WebXRView) : SDL_WebXRView :=
  {| projectionMatrix := m; viewMatrix := viewMatrix v;
     viewportX := viewportX v; viewportY := viewportY v;
     viewportWidth := viewportWidth v; viewportHeight := viewportHeight v |}.
Definition set_viewMatrix (m : list float) (v : SDL_WebXRView) : SDL_WebXRView :=
  {| projectionMatrix := projectionMatrix v; viewMatrix := m;
     viewportX := viewportX v; viewportY := viewportY v;
     viewportWidth := viewportWidth v; viewportHeight := viewportHeight v |}.
Definition set_viewport (x y w h : Z) (v : SDL_WebXRView) : SDL_WebXRView :=
  {| projectionMatrix := projectionMatrix v; viewMatrix := viewMatrix v;
     viewportX := x; viewportY := y; viewportWidth := w; viewportHeight := h |}.

Definition set_viewCount (n : Z) (f : SDL_WebXRFrame) : SDL_WebXRFrame :=
  {| predictedDisplayTime := predictedDisplayTime f; viewCount := n;
     views := views f |}.
Definition set_views (vs : list SDL_WebXRView) (f : SDL_WebXRFrame) : SDL_WebXRFrame :=
  {| predictedDisplayTime := predictedDisplayTime f; viewCount := viewCount f;
     views := vs |}.
Definition set_predictedDisplayTime (t : double) (f : SDL_WebXRFrame)
  : SDL_WebXRFrame :=
  {| predictedDisplayTime := t; viewCount := viewCount f; views := views f |}.

(* ===================================================================== *)
(** ** The environment *)
(* ===================================================================== *)

(** The [extern] functions of the JavaScript library.  The queries are
    answered by the environment; a record [Env] holds its answers during
    one synchronous call of the module (no callback runs inside a call, so
    the answers do not change until it returns).  The three fetches take
    the contents of the out-buffer before the call and give the integer
    they return with the contents of the buffer after it.  The allocator's
    verdict on [SDL_calloc] is part of the same record. *)
Record Env := mkEnv {
  sdl_webxr_is_supported : Z;
  sdl_webxr_get_session_state : Z;
  sdl_webxr_get_view_count : Z;
  sdl_webxr_get_projection_for_view : Z -> list float -> Z * list float;
  sdl_webxr_get_transform_for_view : Z -> list float -> Z * list float;
  sdl_webxr_get_viewport_for_view : Z -> list Z -> Z * list Z;
  calloc_succeeds : bool
}.

(** Modelled from the spec: the JavaScript library (library_sdl_webxr.js)
    that implements the [extern] functions is not among the sources.  Its
    three commands return nothing and are fire-and-forget: the work they
    start answers later through a callback, delivered between two calls of
    the module and never inside one. *)
Inductive EnvCall :=
| sdl_webxr_is_session_supported (mode : Z)
| sdl_webxr_initialize (mode refSpaceType : Z)
| sdl_webxr_uninitialize.

(* ===================================================================== *)
(** ** Program state and the monad of the module's functions *)
(* ===================================================================== *)

Definition addr := positive.

(** A pointer to a session: [None] is [NULL]. *)
Definition session_ptr := option addr.
Definition NULL : session_ptr := None.

Record World := mkWorld {
  heap : gmap addr SDL_WebXRSession;   (* live blocks of the C heap *)
  g_session : session_ptr;
  g_mode_supported : list Z;
  last_error : string;                 (* what SDL_GetError() returns *)
  env_calls : list EnvCall             (* commands sent so far, oldest first *)
}.

(** The state of a freshly loaded module. *)
Definition initial_world : World :=
  {| heap := ∅; g_session := NULL; g_mode_supported := [-1; -1; -1];
     last_error := ""; env_calls := [] |}.

(** What C leaves undefined and this module can run into. *)
Inductive Fault :=
| InvalidAccess (p : addr)   (* read or write through a dangling pointer *)
| InvalidFree (p : addr).    (* SDL_free of a block that is not live *)

Inductive Outcome (A : Type) :=
| Done (a : A) (w : World)
| Undefined (f : Fault).
Arguments Done {A} a w.
Arguments Undefined {A} f.

Definition M (A : Type) := World -> Outcome A.

Definition ret {A} (a : A) : M A := fun w => Done a w.
Definition bind {A B} (m : M A) (k : A -> M B) : M B :=
  fun w => match m w with
           | Done a w' => k a w'
           | Undefined f => Undefined f
           end.

Notation "x <- m ;; k" := (bind m (fun x => k))
  (at level 100, m at next level, right associativity).
Notation "m ;;; k" := (bind m (fun _ => k))
  (at level 100, right associativity).

Definition get_world : M World := fun w => Done w w.

(** Assignments to the components of the state. *)
Definition with_heap (h : gmap addr SDL_WebXRSession) (w : World) : World :=
  {| heap := h; g_session := g_session w;
     g_mode_supported := g_mode_supported w;
     last_error := last_error w; env_calls := env_calls w |}.
Definition with_g_session (p : session_ptr) (w : World) : World :=
  {| heap := heap w; g_session := p;
     g_mode_supported := g_mode_supported w;
     last_error := last_error w; env_calls := env_calls w |}.
Definition with_g_mode_supported (l : list Z) (w : World) : World :=
  {| heap := heap w; g_session := g_session w;
     g_mode_supported := l;
     last_error := last_error w; env_calls := env_calls w |}.
Definition with_last_error (msg : string) (w : World) : World :=
  {| heap := heap w; g_session := g_session w;
     g_mode_supported := g_mode_supported w;
     last_error := msg; env_calls := env_calls w |}.
Definition with_env_calls (l : list EnvCall) (w : World) : World :=
  {| heap := heap w; g_session := g_session w;
     g_mode_supported := g_mode_supported w;
     last_error := last_error w; env_calls := l |}.

Definition set_heap (h : gmap addr SDL_WebXRSession) : M unit :=
  fun w => Done tt (with_heap h w).
Definition set_g_session (p : session_ptr) : M unit :=
  fun w => Done tt (with_g_session p w).
Definition set_g_mode_supported (l : list Z) : M unit :=
  fun w => Done tt (with_g_mode_supported l w).

(** [SDL_SetError] with an already formatted message. *)
Definition SDL_SetError (msg : string) : M unit :=
  fun w => Done tt (with_last_error msg w).

(** Calling one of the environment's commands. *)
Definition call_env (c : EnvCall) : M unit :=
  fun w => Done tt (with_env_calls (env_calls w ++ [c]) w).

(** Reading and updating the session a pointer designates. *)
Definition load (p : addr) : M SDL_WebXRSession :=
  fun w => match heap w !! p with
           | Some s => Done s w
           | None => Undefined (InvalidAccess p)
           end.
Definition store (p : addr) (f : SDL_WebXRSession -> SDL_WebXRSession) : M unit :=
  s <- load p ;; w <- get_world ;; set_heap (<[p := f s]> (heap w)).

(** [SDL_calloc(1, sizeof(SDL_WebXRSession))]: [NULL] when the allocator
    is out of memory, otherwise a block that was not live, cleared. *)
Definition SDL_calloc (e : Env) : M session_ptr :=
  if calloc_succeeds e then
    w <- get_world ;;
    let p := fresh (dom (heap w)) in
    set_heap (<[p := zeroed_session]> (heap w)) ;;;
    ret (Some p)
  else ret NULL.

(** [SDL_free] of a non-null pointer. *)
Definition SDL_free (p : addr) : M unit :=
  fun w => match heap w !! p with
           | Some _ => set_heap (delete p (heap w)) w
           | None => Undefined (InvalidFree p)
           end.

(* ===================================================================== *)
(** ** C strings *)
(* ===================================================================== *)

(** A [const char *] argument is a string whose characters end at the first
    NUL, or at the end when there is none. *)
Fixpoint c_chars (s : string) : list ascii :=
  match s with
  | EmptyString => []
  | String c s' => if Ascii.eqb c NUL then [] else c :: c_chars s'
  end.

Definition SDL_strlen (s : string) : nat := length (c_chars s).

(** The C string held by a character array: the characters before the
    first NUL. *)
Fixpoint c_string_of (buf : list ascii) : string :=
  match buf with
  | [] => EmptyString
  | c :: buf' => if Ascii.eqb c NUL then EmptyString else String c (c_string_of buf')
  end.

(** Modelled from the spec: [SDL_strlcpy] belongs to SDL's string library,
    which is not among the sources; the stored string is capped to the
    destination's size, truncated and never overflowed.  As documented for
    SDL, at most [maxlen - 1] characters are copied to the front of [dst]
    and a NUL is written after them; the bytes behind it are not touched
    and nothing is written when [maxlen] is 0. *)
Definition SDL_strlcpy (dst : list ascii) (src : string) (maxlen : nat)
  : list ascii :=
  match maxlen with
  | O => dst
  | S m =>
      let len := Nat.min (SDL_strlen src) m in
      <[len := NUL]> (take len (c_chars src) ++ drop len dst)
  end.

(* ===================================================================== *)
(** ** Callbacks from JavaScript *)
(* ===================================================================== *)

(** A [const char *] argument of a callback may be [NULL]. *)
Definition webxr_on_session_started (refSpaceType : option string) : M unit :=
  w <- get_world ;;
  match g_session w with
  | Some p =>
      match refSpaceType with
      | Some r =>
          store p (fun s => set_refSpaceTypeString
                     (SDL_strlcpy (refSpaceTypeString s) r REFSPACE_STRING_SIZE) s)
      | None => ret tt
      end ;;;
      store p (set_state SDL_WEBXR_STATE_RUNNING) ;;;
      store p (set_initialized true)
  | None => ret tt
  end.

Definition webxr_on_session_ended : M unit :=
  w <- get_world ;;
  match g_session w with
  | Some p =>
      store p (set_state SDL_WEBXR_STATE_ENDED) ;;;
      store p (set_initialized false)
  | None => ret tt
  end.

(** [SDL_SetError("WebXR session failed: %s", message)] *)
Definition session_failed_error (message : string) : string :=
  ("WebXR session failed: " ++ string_of_list_ascii (c_chars message))%string.

Definition webxr_on_session_failed (message : option string) : M unit :=
  w <- get_world ;;
  match g_session w with
  | Some p =>
      store p (set_state SDL_WEBXR_STATE_IDLE) ;;;
      store p (set_initialized false) ;;;
      match message with
      | Some m => SDL_SetError (session_failed_error m)
      | None => ret tt
      end
  | None => ret tt
  end.

Definition webxr_on_frame : M unit := ret tt.

(* ===================================================================== *)
(** ** Public API *)
(* ===================================================================== *)

Definition SDL_WebXR_IsAvailable (e : Env) : bool :=
  negb (sdl_webxr_is_supported e =? 0).

(** [g_mode_supported[mode]] for an index the C code has checked. *)
Definition mode_entry (l : list Z) (mode : Z) : Z := nth (Z.to_nat mode) l (-1).

Definition mode_supported_callback (mode supported : Z) : M unit :=
  if (0 <=? mode) && (mode <? 3) then
    w <- get_world ;;
    set_g_mode_supported (<[Z.to_nat mode := supported]> (g_mode_supported w))
  else ret tt.

Definition SDL_WebXR_IsSessionModeSupported (e : Env) (mode : SDL_WebXRSessionMode)
  : M bool :=
  if negb (SDL_WebXR_IsAvailable e) then ret false
  else
    w <- get_world ;;
    (* Check cached result *)
    if (0 <=? mode) && (mode <? 3) && (0 <=? mode_entry (g_mode_supported w) mode)
    then ret (negb (mode_entry (g_mode_supported w) mode =? 0))
    else
      (* Trigger async check (result will be available next call) *)
      call_env (sdl_webxr_is_session_supported mode) ;;;
      (* Optimistically return true for immersive-vr (most common) *)
      if mode =? SDL_WEBXR_SESSION_IMMERSIVE_VR then ret true
      else ret false.

Definition SDL_WebXR_RequestSession (e : Env)
    (mode : SDL_WebXRSessionMode) (refSpaceType : SDL_WebXRReferenceSpaceType)
  : M session_ptr :=
  if negb (SDL_WebXR_IsAvailable e) then
    SDL_SetError "WebXR is not available" ;;;
    ret NULL
  else
    w <- get_world ;;
    match g_session w with
    | Some _ =>
        SDL_SetError "WebXR session already active" ;;;
        ret NULL
    | None =>
        p <- SDL_calloc e ;;
        set_g_session p ;;;
        match p with
        | None => ret NULL
        | Some a =>
            store a (set_mode mode) ;;;
            store a (set_refSpaceType refSpaceType) ;;;
            store a (set_state SDL_WEBXR_STATE_REQUESTING) ;;;
            store a (set_initialized false) ;;;
            (* Initialize via JavaScript library *)
            call_env (sdl_webxr_initialize mode refSpaceType) ;;;
            w' <- get_world ;;
            ret (g_session w')
        end
    end.

Definition SDL_WebXR_GetSessionState (e : Env) (session : session_ptr)
  : M SDL_WebXRSessionState :=
  match session with
  | None => ret SDL_WEBXR_STATE_IDLE
  | Some p =>
      (* Sync state from JS side *)
      store p (set_state (sdl_webxr_get_session_state e)) ;;;
      s <- load p ;;
      ret (state s)
  end.

Definition SDL_WebXR_EndSession (session : session_ptr) : M unit :=
  match session with
  | None => ret tt
  | Some p =>
      call_env sdl_webxr_uninitialize ;;;
      w <- get_world ;;
      (if decide (g_session w = session) then set_g_session NULL else ret tt) ;;;
      SDL_free p
  end.

(** The body of the loop of [SDL_WebXR_BeginFrame] for view [i]. *)
Definition fetch_view (e : Env) (i : Z) (view : SDL_WebXRView) : SDL_WebXRView :=
  (* Get projection matrix *)
  let '(ok, m) := sdl_webxr_get_projection_for_view e i (projectionMatrix view) in
  let view := set_projectionMatrix (if ok =? 0 then zero_matrix else m) view in
  (* Get view/eye matrix *)
  let '(ok, m) := sdl_webxr_get_transform_for_view e i (viewMatrix view) in
  let view := set_viewMatrix (if ok =? 0 then zero_matrix else m) view in
  (* Get viewport *)
  let '(ok, viewport) := sdl_webxr_get_viewport_for_view e i [0; 0; 0; 0] in
  if negb (ok =? 0) then
    set_viewport (nth 0 viewport 0) (nth 1 viewport 0)
                 (nth 2 viewport 0) (nth 3 viewport 0) view
  else set_viewport 0 0 0 0 view.

(** [for (int i = ...; i < frame->viewCount; i++)], with [n] iterations
    left to run. *)
Fixpoint fetch_views (e : Env) (n : nat) (i : Z) (vs : list SDL_WebXRView)
  : list SDL_WebXRView :=
  match n with
  | O => vs
  | S n' => fetch_views e n' (i + 1) (alter (fetch_view e i) (Z.to_nat i) vs)
  end.

(** The frame is the caller's buffer: [None] is a [NULL] pointer, [Some f]
    a pointer to a buffer holding [f].  The result pairs the returned
    boolean with the buffer after the call. *)
Definition SDL_WebXR_BeginFrame (e : Env) (session : session_ptr)
    (frame : option SDL_WebXRFrame) : M (bool * option SDL_WebXRFrame) :=
  match session, frame with
  | Some _, Some f =>
      (* Check if we're in a valid state for rendering *)
      st <- SDL_WebXR_GetSessionState e session ;;
      if negb (st =? SDL_WEBXR_STATE_RUNNING) &&
         negb (st =? SDL_WEBXR_STATE_VISIBLE) &&
         negb (st =? SDL_WEBXR_STATE_VISIBLE_BLURRED)
      then ret (false, frame)
      else
        (* Get view count *)
        let f := set_viewCount (sdl_webxr_get_view_count e) f in
        if viewCount f <=? 0 then ret (false, Some f)
        else
          let f := if viewCount f >? 2 then set_viewCount 2 f (* Clamp to stereo max *)
                   else f in
          (* Get data for each view *)
          let f := set_views (fetch_views e (Z.to_nat (viewCount f)) 0 (views f)) f in
          (* Get predicted display time (not directly available, use 0) *)
          let f := set_predictedDisplayTime 0 f in
          ret (true, Some f)
  | _, _ => ret (false, frame)
  end.

(* ===================================================================== *)
(** ** Concrete environments and states *)
(* ===================================================================== *)

(** An environment with XR support and a running stereo session: view [i]
    has the projection pattern [i + 7], the eye pattern [i + 9] and a
    viewport at [x = 10 * i]. *)
Definition env_running : Env :=
  {| sdl_webxr_is_supported := 1;
     sdl_webxr_get_session_state := SDL_WEBXR_STATE_RUNNING;
     sdl_webxr_get_view_count := 2;
     sdl_webxr_get_projection_for_view := fun i _ => (1, repeat (i + 7) 16);
     sdl_webxr_get_transform_for_view := fun i _ => (1, repeat (i + 9) 16);
     sdl_webxr_get_viewport_for_view := fun i _ => (1, [10 * i; 0; 10; 20]);
     calloc_succeeds := true |}.

Definition with_is_supported (v : Z) (e : Env) : Env :=
  {| sdl_webxr_is_supported := v;
     sdl_webxr_get_session_state := sdl_webxr_get_session_state e;
     sdl_webxr_get_view_count := sdl_webxr_get_view_count e;
     sdl_webxr_get_projection_for_view := sdl_webxr_get_projection_for_view e;
     sdl_webxr_get_transform_for_view := sdl_webxr_get_transform_for_view e;
     sdl_webxr_get_viewport_for_view := sdl_webxr_get_viewport_for_view e;
     calloc_succeeds := calloc_succeeds e |}.
Definition with_session_state (v : Z) (e : Env) : Env :=
  {| sdl_webxr_is_supported := sdl_webxr_is_supported e;
     sdl_webxr_get_session_state := v;
     sdl_webxr_get_view_count := sdl_webxr_get_view_count e;
     sdl_webxr_get_projection_for_view := sdl_webxr_get_projection_for_view e;
     sdl_webxr_get_transform_for_view := sdl_webxr_get_transform_for_view e;
     sdl_webxr_get_viewport_for_view := sdl_webxr_get_viewport_for_view e;
     calloc_succeeds := calloc_succeeds e |}.
Definition with_view_count (v : Z) (e : Env) : Env :=
  {| sdl_webxr_is_supported := sdl_webxr_is_supported e;
     sdl_webxr_get_session_state := sdl_webxr_get_session_state e;
     sdl_webxr_get_view_count := v;
     sdl_webxr_get_projection_for_view := sdl_webxr_get_projection_for_view e;
     sdl_webxr_get_transform_for_view := sdl_webxr_get_transform_for_view e;
     sdl_webxr_get_viewport_for_view := sdl_webxr_get_viewport_for_view e;
     calloc_succeeds := calloc_succeeds e |}.
Definition with_projection (g : Z -> list float -> Z * list float) (e : Env) : Env :=
  {| sdl_webxr_is_supported := sdl_webxr_is_supported e;
     sdl_webxr_get_session_state := sdl_webxr_get_session_state e;
     sdl_webxr_get_view_count := sdl_webxr_get_view_count e;
     sdl_webxr_get_projection_for_view := g;
     sdl_webxr_get_transform_for_view := sdl_webxr_get_transform_for_view e;
     sdl_webxr_get_viewport_for_view := sdl_webxr_get_viewport_for_view e;
     calloc_succeeds := calloc_succeeds e |}.

(** The same environment once XR support is gone. *)
Definition env_unavailable : Env := with_is_supported 0 env_running.

(** A session as [SDL_WebXR_RequestSession(IMMERSIVE_VR, LOCAL_FLOOR)]
    leaves it. *)
Definition requested_session : SDL_WebXRSession :=
  {| mode := SDL_WEBXR_SESSION_IMMERSIVE_VR;
     refSpaceType := SDL_WEBXR_REFSPACE_LOCAL_FLOOR;
     state := SDL_WEBXR_STATE_REQUESTING;
     refSpaceTypeString := repeat NUL REFSPACE_STRING_SIZE;
     initialized := false |}.

(** The state after that request on a freshly loaded module. *)
Definition requested_world : World :=
  {| heap := {[ 1%positive := requested_session ]};
     g_session := Some 1%positive;
     g_mode_supported := [-1; -1; -1];
     last_error := "";
     env_calls := [sdl_webxr_initialize SDL_WEBXR_SESSION_IMMERSIVE_VR
                                        SDL_WEBXR_REFSPACE_LOCAL_FLOOR] |}.

(** A zero-initialised frame buffer. *)
Definition zero_view : SDL_WebXRView :=
  {| projectionMatrix := zero_matrix; viewMatrix := zero_matrix;
     viewportX := 0; viewportY := 0; viewportWidth := 0; viewportHeight := 0 |}.
Definition zero_frame : SDL_WebXRFrame :=
  {| predictedDisplayTime := 0; viewCount := 0; views := [zero_view; zero_view] |}.

(* ===================================================================== *)
(** ** Derived states and auxiliary definitions used by the statements *)
(* ===================================================================== *)

(** The session [SDL_WebXR_RequestSession] builds. *)
Definition new_session (mode refSpaceType : Z) : SDL_WebXRSession :=
  {| mode := mode; refSpaceType := refSpaceType;
     state := SDL_WEBXR_STATE_REQUESTING;
     refSpaceTypeString := repeat NUL REFSPACE_STRING_SIZE;
     initialized := false |}.

(** The state after [SDL_WebXR_GetSessionState] has copied the
    environment's answer into the live session [s] at [p]. *)
Definition synced (e : Env) (p : addr) (s : SDL_WebXRSession) (w : World) : World :=
  with_heap (<[p := set_state (sdl_webxr_get_session_state e) s]> (heap w)) w.

(** The slot after [SDL_WebXR_EndSession(p)]. *)
Definition slot_after_end (p : addr) (slot : session_ptr) : session_ptr :=
  if decide (slot = Some p) then NULL else slot.

(** The state after the first teardown of the session of
    [requested_world]. *)
Definition ended_world : World :=
  {| heap := ∅; g_session := NULL; g_mode_supported := [-1; -1; -1];
     last_error := "";
     env_calls := [sdl_webxr_initialize SDL_WEBXR_SESSION_IMMERSIVE_VR
                                        SDL_WEBXR_REFSPACE_LOCAL_FLOOR;
                   sdl_webxr_uninitialize] |}.

(** The states in which [SDL_WebXR_BeginFrame] goes on to fetch views. *)
Definition renderable (st : SDL_WebXRSessionState) : bool :=
  (st =? SDL_WEBXR_STATE_RUNNING) || (st =? SDL_WEBXR_STATE_VISIBLE)
  || (st =? SDL_WEBXR_STATE_VISIBLE_BLURRED).

(** The number of views [SDL_WebXR_BeginFrame] fetches for a positive
    reported count. *)
Definition clamped (n : Z) : Z := if n >? 2 then 2 else n.

(** A stereo environment whose projection fetch fails for view 1 only. *)
Definition env_projection_fails_for_1 : Env :=
  with_projection (fun i buf => if i =? 1 then (0, buf) else (1, repeat (i + 7) 16))
                  env_running.

(** The session after the success callback. *)
Definition started_session (r : option string) (s : SDL_WebXRSession)
  : SDL_WebXRSession :=
  {| mode := mode s; refSpaceType := refSpaceType s;
     state := SDL_WEBXR_STATE_RUNNING;
     refSpaceTypeString :=
       match r with
       | Some r => SDL_strlcpy (refSpaceTypeString s) r REFSPACE_STRING_SIZE
       | None => refSpaceTypeString s
       end;
     initialized := true |}.

(** The session after the end and failure callbacks. *)
Definition stopped_session (st : SDL_WebXRSessionState) (s : SDL_WebXRSession)
  : SDL_WebXRSession :=
  {| mode := mode s; refSpaceType := refSpaceType s; state := st;
     refSpaceTypeString := refSpaceTypeString s; initialized := false |}.

(** The 32-byte array once "local-floor" has been copied into a cleared
    one. *)
Definition local_floor_buffer : list ascii :=
  list_ascii_of_string "local-floor" ++ repeat NUL 21.

(** The state after the success callback with "local-floor" has reached
    [requested_world]. *)
Definition running_world : World :=
  with_heap {[ 1%positive :=
                 {| mode := SDL_WEBXR_SESSION_IMMERSIVE_VR;
                    refSpaceType := SDL_WEBXR_REFSPACE_LOCAL_FLOOR;
                    state := SDL_WEBXR_STATE_RUNNING;
                    refSpaceTypeString := local_floor_buffer;
                    initialized := true |} ]}
            requested_world.

(** The singleton slot, when occupied, designates a live block. *)
Definition slot_live (w : World) : Prop :=
  forall p, g_session w = Some p -> is_Some (heap w !! p).

(** What can happen to the cache: the application polls a mode, or the
    environment answers a probe. *)
Inductive CacheOp :=
| Poll (e : Env) (m : SDL_WebXRSessionMode)
| Answer (m supported : Z).

Definition run_cache_op (o : CacheOp) : M (option bool) :=
  match o with
  | Poll e m => b <- SDL_WebXR_IsSessionModeSupported e m ;; ret (Some b)
  | Answer m v => mode_supported_callback m v ;;; ret None
  end.

Fixpoint run_cache_ops (os : list CacheOp) : M (list (option bool)) :=
  match os with
  | [] => ret []
  | o :: os' => r <- run_cache_op o ;; rs <- run_cache_ops os' ;; ret (r :: rs)
  end.

(** The operation delivers a probe answer for mode [m]. *)
Definition answers_mode (m : Z) (o : CacheOp) : bool :=
  match o with
  | Answer m' _ => m' =? m
  | Poll _ _ => false
  end.

(** The command starts a probe of mode [m]. *)
Definition probes_mode (m : Z) (c : EnvCall) : bool :=
  match c with
  | sdl_webxr_is_session_supported m' => m' =? m
  | _ => false
  end.

(** The probes of mode [m] among the commands sent so far. *)
Definition probes_sent (m : Z) (w : World) : list EnvCall :=
  List.filter (probes_mode m) (env_calls w).

(** The answer a poll of a cached mode gives. *)
Definition cached_answer (e : Env) (v : Z) : bool :=
  if SDL_WebXR_IsAvailable e then negb (v =? 0) else false.

(** A freshly loaded module after immersive VR has been polled once. *)
Definition probed_world : World :=
  with_env_calls [sdl_webxr_is_session_supported SDL_WEBXR_SESSION_IMMERSIVE_VR]
                 initial_world.

(** ... and after the environment has answered that it is supported. *)
Definition cached_world : World :=
  with_g_mode_supported [-1; 1; -1] probed_world.

(* ===================================================================== *)
(** ** The rest of the public API *)
(* ===================================================================== *)

(** An [SDL_GPUDevice *]: the module only tests it against [NULL]. *)
Definition device_ptr := option positive.

Definition SDL_WebXR_BindGPUDevice (session : session_ptr) (device : device_ptr)
  : M bool :=
  match session, device with
  | Some _, Some _ =>
      (* This is currently a no-op since the binding happens in JS. *)
      ret true
  | _, _ =>
      SDL_SetError "Invalid session or device" ;;;
      ret false
  end.

Definition SDL_WebXR_EndFrame (session : session_ptr) : M unit :=
  match session with
  | None => ret tt
  | Some _ =>
      (* No explicit end-frame call needed for WebXR. *)
      ret tt
  end.

(** The answers of the environment to the queries that only the helper
    functions make.  [sdl_webxr_get_render_target_size] takes the contents
    of its out-buffer before the call and gives the integer it returns with
    the contents after it; the three handles are [unsigned int]s. *)
Record EnvAux := mkEnvAux {
  sdl_webxr_get_render_target_size : list Z -> Z * list Z;
  sdl_webxr_get_framebuffer : Z;
  sdl_webxr_get_color_texture_for_view : Z -> Z;
  sdl_webxr_get_depth_texture_for_view : Z -> Z
}.

(** The helper functions read and write no state of the module: they are
    functions of the environment's answers and of their arguments.  An
    out-parameter is [None] for a [NULL] pointer and [Some v] for a pointer
    to a location holding [v]; it is returned with the result. *)
Definition SDL_WebXR_GetViewCount (e : Env) (session : session_ptr) : Z :=
  match session with
  | None => 0
  | Some _ => sdl_webxr_get_view_count e
  end.

Definition SDL_WebXR_GetRenderTargetSize (a : EnvAux) (session : session_ptr)
    (width height : option Z) : bool * option Z * option Z :=
  match session, width, height with
  | Some _, Some _, Some _ =>
      let '(ok, size) := sdl_webxr_get_render_target_size a [0; 0] in
      if ok =? 0 then (false, width, height)
      else (true, Some (nth 0 size 0), Some (nth 1 size 0))
  | _, _, _ => (false, width, height)
  end.

Definition SDL_WebXR_GetHeadTransform (e : Env) (session : session_ptr)
    (matrix : option (list float)) : bool * option (list float) :=
  match session, matrix with
  | Some _, Some m =>
      let '(ok, m') := sdl_webxr_get_transform_for_view e (-1) m in
      (negb (ok =? 0), Some m')
  | _, _ => (false, matrix)
  end.

Definition SDL_WebXR_GetFramebuffer (a : EnvAux) (session : session_ptr) : Z :=
  match session with
  | None => 0
  | Some _ => sdl_webxr_get_framebuffer a
  end.

Definition SDL_WebXR_GetColorTextureForView (a : EnvAux) (session : session_ptr)
    (viewIndex : Z) : Z :=
  match session with
  | None => 0
  | Some _ => sdl_webxr_get_color_texture_for_view a viewIndex
  end.

Definition SDL_WebXR_GetDepthTextureForView (a : EnvAux) (session : session_ptr)
    (viewIndex : Z) : Z :=
  match session with
  | None => 0
  | Some _ => sdl_webxr_get_depth_texture_for_view a viewIndex
  end.

(** An environment for the helper functions: a 1024 x 768 render target. *)
Definition aux_running : EnvAux :=
  {| sdl_webxr_get_render_target_size := fun _ => (1, [1024; 768]);
     sdl_webxr_get_framebuffer := 5;
     sdl_webxr_get_color_texture_for_view := fun i => 10 + i;
     sdl_webxr_get_depth_texture_for_view := fun i => 20 + i |}.

(* ===================================================================== *)
(** ** Runs of the module *)
(* ===================================================================== *)

(** The callbacks JavaScript can deliver between two calls. *)
Inductive Callback :=
| OnSessionStarted (refSpaceType : option string)
| OnSessionEnded
| OnSessionFailed (message : option string)
| OnFrame
| OnModeSupported (m supported : Z).

Definition run_callback (cb : Callback) : M unit :=
  match cb with
  | OnSessionStarted r => webxr_on_session_started r
  | OnSessionEnded => webxr_on_session_ended
  | OnSessionFailed m => webxr_on_session_failed m
  | OnFrame => webxr_on_frame
  | OnModeSupported m v => mode_supported_callback m v
  end.

(** What can happen to the module: a call of one of its state-changing
    entry points by the application, or a callback. *)
Inductive Step :=
| CallIsSessionModeSupported (e : Env) (m : SDL_WebXRSessionMode)
| CallRequestSession (e : Env) (m : SDL_WebXRSessionMode)
                     (r : SDL_WebXRReferenceSpaceType)
| CallGetSessionState (e : Env) (session : session_ptr)
| CallEndSession (session : session_ptr)
| CallBindGPUDevice (session : session_ptr) (device : device_ptr)
| CallBeginFrame (e : Env) (session : session_ptr) (frame : option SDL_WebXRFrame)
| CallEndFrame (session : session_ptr)
| Js (cb : Callback).

Definition run_step (c : Step) : M unit :=
  match c with
  | CallIsSessionModeSupported e m => SDL_WebXR_IsSessionModeSupported e m ;;; ret tt
  | CallRequestSession e m r => SDL_WebXR_RequestSession e m r ;;; ret tt
  | CallGetSessionState e session => SDL_WebXR_GetSessionState e session ;;; ret tt
  | CallEndSession session => SDL_WebXR_EndSession session
  | CallBindGPUDevice session device => SDL_WebXR_BindGPUDevice session device ;;; ret tt
  | CallBeginFrame e session frame => SDL_WebXR_BeginFrame e session frame ;;; ret tt
  | CallEndFrame session => SDL_WebXR_EndFrame session
  | Js cb => run_callback cb
  end.

Fixpoint run_steps (cs : list Step) : M unit :=
  match cs with
  | [] => ret tt
  | c :: cs' => run_step c ;;; run_steps cs'
  end.

(** The heap holds exactly the session of the singleton slot, and nothing
    when the slot is empty. *)
Definition single_owner (w : World) : Prop :=
  match g_session w with
  | None => heap w = ∅
  | Some p => exists s, heap w = {[ p := s ]}
  end.

(** The numbers of start and stop commands sent to the environment. *)
Definition is_initialize (c : EnvCall) : bool :=
  match c with sdl_webxr_initialize _ _ => true | _ => false end.
Definition is_uninitialize (c : EnvCall) : bool :=
  match c with sdl_webxr_uninitialize => true | _ => false end.
Definition sessions_started (w : World) : nat :=
  length (List.filter is_initialize (env_calls w)).
Definition sessions_stopped (w : World) : nat :=
  length (List.filter is_uninitialize (env_calls w)).

(** [n] polls of mode [m], each with the environment [e]. *)
Definition polls (e : Env) (m : SDL_WebXRSessionMode) (n : nat) : list CacheOp :=
  repeat (Poll e m) n.

(** What every run from a freshly loaded module keeps: the heap holds the
    session of the slot and nothing else, the mode cache keeps its three
    entries, and the start commands exceed the stop commands by the session
    of the slot. *)
Definition module_inv (w : World) : Prop :=
  single_owner w /\
  length (g_mode_supported w) = 3%nat /\
  sessions_started w
  = (sessions_stopped w + match g_session w with Some _ => 1 | None => 0 end)%nat.




(* ===================================================================== *)
(** ** The test program (test/webxr_test.c) *)
(* ===================================================================== *)

(** The part of the test program that drives the module: [TryStartXR], the
    event dispatch and the session check of [MainLoop], and the start-up
    probe of [main].  Its logging, animation and rendering calls touch
    neither the module nor the variables below and are left out. *)
Record App := mkApp {
  running : bool;
  xrSession : session_ptr;
  xrActive : bool
}.

Definition initial_app : App :=
  {| running := true; xrSession := NULL; xrActive := false |}.

Inductive SDL_Scancode :=
| SDL_SCANCODE_SPACE
| SDL_SCANCODE_RETURN
| SDL_SCANCODE_ESCAPE
| SDL_SCANCODE_OTHER.

Inductive SDL_Event :=
| SDL_EVENT_QUIT
| SDL_EVENT_KEY_DOWN (scancode : SDL_Scancode)
| SDL_EVENT_MOUSE_BUTTON_DOWN
| SDL_EVENT_OTHER.

(** Try to start WebXR session - must be called from user gesture *)
Definition TryStartXR (e : Env) (a : App) : M App :=
  match xrSession a with
  | Some _ => ret a
  | None =>
      if negb (SDL_WebXR_IsAvailable e) then ret a
      else
        p <- SDL_WebXR_RequestSession e SDL_WEBXR_SESSION_IMMERSIVE_VR
               SDL_WEBXR_REFSPACE_LOCAL_FLOOR ;;
        ret {| running := running a; xrSession := p; xrActive := xrActive a |}
  end.

(** The body of [while (SDL_PollEvent(&event))]. *)
Definition handle_event (e : Env) (event : SDL_Event) (a : App) : M App :=
  match event with
  | SDL_EVENT_QUIT =>
      ret {| running := false; xrSession := xrSession a; xrActive := xrActive a |}
  | SDL_EVENT_KEY_DOWN SDL_SCANCODE_SPACE
  | SDL_EVENT_KEY_DOWN SDL_SCANCODE_RETURN => TryStartXR e a
  | SDL_EVENT_KEY_DOWN SDL_SCANCODE_ESCAPE =>
      match xrSession a with
      | Some _ =>
          SDL_WebXR_EndSession (xrSession a) ;;;
          ret {| running := running a; xrSession := NULL; xrActive := false |}
      | None => ret a
      end
  | SDL_EVENT_KEY_DOWN SDL_SCANCODE_OTHER => ret a
  | SDL_EVENT_MOUSE_BUTTON_DOWN => TryStartXR e a
  | SDL_EVENT_OTHER => ret a
  end.

Fixpoint handle_events (e : Env) (events : list SDL_Event) (a : App) : M App :=
  match events with
  | [] => ret a
  | event :: events' => a' <- handle_event e event a ;; handle_events e events' a'
  end.

(** The block "Check XR session state" of [MainLoop].  [frame] is the
    content of the uninitialised local buffer; the result carries the frame
    the program goes on to render, if any. *)
Definition check_xr_session (e : Env) (frame : SDL_WebXRFrame) (a : App)
  : M (App * option SDL_WebXRFrame) :=
  match xrSession a with
  | Some _ =>
      st <- SDL_WebXR_GetSessionState e (xrSession a) ;;
      if (st =? SDL_WEBXR_STATE_RUNNING) || (st =? SDL_WEBXR_STATE_VISIBLE) then
        let a := {| running := running a; xrSession := xrSession a;
                    xrActive := true |} in
        r <- SDL_WebXR_BeginFrame e (xrSession a) (Some frame) ;;
        if fst r then
          SDL_WebXR_EndFrame (xrSession a) ;;;
          ret (a, snd r)
        else ret (a, None)
      else if st =? SDL_WEBXR_STATE_ENDED then
        SDL_WebXR_EndSession (xrSession a) ;;;
        ret ({| running := running a; xrSession := NULL; xrActive := false |}, None)
      else ret (a, None)
  | None => ret (a, None)
  end.

(** One invocation of [MainLoop]: the pending events, then the session
    check.  No callback runs inside it, so one [Env] answers throughout. *)
Definition MainLoop (e : Env) (events : list SDL_Event) (frame : SDL_WebXRFrame)
    (a : App) : M (App * option SDL_WebXRFrame) :=
  a' <- handle_events e events a ;;
  check_xr_session e frame a'.

(** The XR part of [main] before the loop is installed. *)
Definition main_startup (e : Env) : M unit :=
  if SDL_WebXR_IsAvailable e then
    SDL_WebXR_IsSessionModeSupported e SDL_WEBXR_SESSION_IMMERSIVE_VR ;;; ret tt
  else ret tt.

(** A run of the program after start-up: invocations of [MainLoop]
    interleaved with callbacks. *)
Inductive AppStep :=
| Loop (e : Env) (events : list SDL_Event) (frame : SDL_WebXRFrame)
| Deliver (cb : Callback).

Definition run_app_step (s : AppStep) (a : App) : M App :=
  match s with
  | Loop e events frame => r <- MainLoop e events frame a ;; ret (fst r)
  | Deliver cb => run_callback cb ;;; ret a
  end.

Fixpoint run_app (steps : list AppStep) (a : App) : M App :=
  match steps with
  | [] => ret a
  | s :: steps' => a' <- run_app_step s a ;; run_app steps' a'
  end.

(** The whole program: start-up, then the run. *)
Definition run_program (e : Env) (steps : list AppStep) : M App :=
  main_startup e ;;; run_app steps initial_app.

(** What the test program keeps at every step: its handle is the module's
    singleton slot, and the heap holds that session only. *)
Definition app_inv (a : App) (w : World) : Prop :=
  xrSession a = g_session w /\ single_owner w.

(** The events that ask for a session or are ignored: everything but QUIT
    and ESCAPE. *)
Definition is_gesture_or_ignored (event : SDL_Event) : bool :=
  match event with
  | SDL_EVENT_QUIT => false
  | SDL_EVENT_KEY_DOWN SDL_SCANCODE_ESCAPE => false
  | _ => true
  end.

(* ===================================================================== *)
(** ** The build for other platforms *)
(* ===================================================================== *)

(** The stub implementations compiled when [SDL_PLATFORM_EMSCRIPTEN] is not
    defined.  They have no module state; only [SDL_SetError] acts on the
    program state. *)
Module NonEmscripten.

Definition SDL_WebXR_IsAvailable : bool := false.

Definition SDL_WebXR_IsSessionModeSupported (mode : SDL_WebXRSessionMode) : bool :=
  false.

Definition SDL_WebXR_RequestSession (mode : SDL_WebXRSessionMode)
    (refSpaceType : SDL_WebXRReferenceSpaceType) : M session_ptr :=
  SDL_SetError "WebXR is only available on Emscripten" ;;;
  ret NULL.

Definition SDL_WebXR_GetSessionState (session : session_ptr)
  : SDL_WebXRSessionState := SDL_WEBXR_STATE_IDLE.

Definition SDL_WebXR_EndSession (session : session_ptr) : M unit := ret tt.

Definition SDL_WebXR_BindGPUDevice (session : session_ptr) (device : device_ptr)
  : bool := false.

Definition SDL_WebXR_BeginFrame (session : session_ptr)
    (frame : option SDL_WebXRFrame) : bool * option SDL_WebXRFrame :=
  (false, frame).

Definition SDL_WebXR_EndFrame (session : session_ptr) : M unit := ret tt.

Definition SDL_WebXR_GetViewCount (session : session_ptr) : Z := 0.

Definition SDL_WebXR_GetRenderTargetSize (session : session_ptr)
    (width height : option Z) : bool * option Z * option Z :=
  (false, width, height).

Definition SDL_WebXR_GetHeadTransform (session : session_ptr)
    (matrix : option (list float)) : bool * option (list float) :=
  (false, matrix).

Definition SDL_WebXR_GetFramebuffer (session : session_ptr) : Z := 0.

Definition SDL_WebXR_GetColorTextureForView (session : session_ptr)
    (viewIndex : Z) : Z := 0.

Definition SDL_WebXR_GetDepthTextureForView (session : session_ptr)
    (viewIndex : Z) : Z := 0.

End NonEmscripten.

(* ===================================================================== *)
(** ** Memory and monad lemmas *)
(* ===================================================================== *)

Lemma bind_Done {A B} (m : M A) (k : A -> M B) w a w' :
  m w = Done a w' -> bind m k w = k a w'.
Proof. unfold bind. intros ->. reflexivity. Qed.

Lemma bind_Undefined {A B} (m : M A) (k : A -> M B) w f :
  m w = Undefined f -> bind m k w = Undefined f.
Proof. unfold bind. intros ->. reflexivity. Qed.

Lemma load_live p w s : heap w !! p = Some s -> load p w = Done s w.
Proof. unfold load. intros ->. reflexivity. Qed.

Lemma store_live p f w s :
  heap w !! p = Some s ->
  store p f w = Done tt (with_heap (<[p := f s]> (heap w)) w).
Proof. intros H. unfold store, bind, load. rewrite H. reflexivity. Qed.

Lemma store_dangling p f w :
  heap w !! p = None -> store p f w = Undefined (InvalidAccess p).
Proof. intros H. unfold store, bind, load. rewrite H. reflexivity. Qed.

Lemma SDL_free_live p w s :
  heap w !! p = Some s -> SDL_free p w = Done tt (with_heap (delete p (heap w)) w).
Proof. unfold SDL_free. intros ->. reflexivity. Qed.

Lemma SDL_free_dangling p w :
  heap w !! p = None -> SDL_free p w = Undefined (InvalidFree p).
Proof. unfold SDL_free. intros ->. reflexivity. Qed.

Lemma SDL_calloc_fresh (w : World) : heap w !! fresh (dom (heap w)) = None.
Proof. apply not_elem_of_dom. apply is_fresh. Qed.

Lemma bind_ret {A B} (a : A) (k : A -> M B) w : bind (ret a) k w = k a w.
Proof. reflexivity. Qed.

Lemma bind_get_world {B} (k : World -> M B) w : bind get_world k w = k w w.
Proof. reflexivity. Qed.

Lemma bind_store_live {B} p f (k : unit -> M B) w s :
  heap w !! p = Some s ->
  bind (store p f) k w = k tt (with_heap (<[p := f s]> (heap w)) w).
Proof. intros H. apply bind_Done. by apply store_live. Qed.

Lemma bind_store_dangling {B} p f (k : unit -> M B) w :
  heap w !! p = None -> bind (store p f) k w = Undefined (InvalidAccess p).
Proof. intros H. apply bind_Undefined. by apply store_dangling. Qed.

(** One assignment through a pointer known to be live. *)
Ltac step_store :=
  erewrite bind_store_live
    by (simpl; first [eassumption | apply lookup_insert_eq]).

(* ===================================================================== *)
(** ** Requesting a session *)
(* ===================================================================== *)

Lemma RequestSession_unavailable e mode refSpaceType w :
  SDL_WebXR_IsAvailable e = false ->
  SDL_WebXR_RequestSession e mode refSpaceType w
  = Done NULL (with_last_error "WebXR is not available" w).
Proof. intros H. unfold SDL_WebXR_RequestSession. rewrite H. reflexivity. Qed.

Lemma RequestSession_occupied e mode refSpaceType w p :
  SDL_WebXR_IsAvailable e = true ->
  g_session w = Some p ->
  SDL_WebXR_RequestSession e mode refSpaceType w
  = Done NULL (with_last_error "WebXR session already active" w).
Proof.
  intros Ha Hg. unfold SDL_WebXR_RequestSession. rewrite Ha. simpl.
  unfold bind, get_world. rewrite Hg. reflexivity.
Qed.

Lemma RequestSession_fresh e mode refSpaceType w :
  SDL_WebXR_IsAvailable e = true ->
  g_session w = NULL ->
  calloc_succeeds e = true ->
  let p := fresh (dom (heap w)) in
  SDL_WebXR_RequestSession e mode refSpaceType w
  = Done (Some p)
      {| heap := <[p := new_session mode refSpaceType]> (heap w);
         g_session := Some p;
         g_mode_supported := g_mode_supported w;
         last_error := last_error w;
         env_calls := env_calls w ++ [sdl_webxr_initialize mode refSpaceType] |}.
Proof.
  intros Ha Hg Hc p. unfold SDL_WebXR_RequestSession. rewrite Ha. simpl.
  rewrite bind_get_world, Hg.
  unfold SDL_calloc. rewrite Hc. unfold NULL. cbv beta iota.
  erewrite bind_Done by reflexivity. fold p.
  erewrite bind_Done by reflexivity.
  do 4 step_store.
  unfold bind, call_env, get_world, ret, with_heap, with_g_session, with_env_calls.
  simpl. rewrite !insert_insert_eq. reflexivity.
Qed.

(** [requested_world] is what the first request of a run produces. *)
Lemma requested_world_reached :
  SDL_WebXR_RequestSession env_running SDL_WEBXR_SESSION_IMMERSIVE_VR
    SDL_WEBXR_REFSPACE_LOCAL_FLOOR initial_world
  = Done (Some 1%positive) requested_world.
Proof. vm_compute. reflexivity. Qed.

(** C1 (amended).  A request made while the singleton slot is occupied
    returns [NULL] and changes nothing but the last error: the heap (hence
    every field of the existing session), the slot, the mode cache and the
    trace of commands are as before.  Availability is checked first, so the
    error is "WebXR session already active" when the environment reports
    XR support and "WebXR is not available" when it does not. *)
Theorem RequestSession_while_active e mode refSpaceType w p :
  g_session w = Some p ->
  exists w',
    SDL_WebXR_RequestSession e mode refSpaceType w = Done NULL w' /\
    heap w' = heap w /\
    g_session w' = Some p /\
    g_mode_supported w' = g_mode_supported w /\
    env_calls w' = env_calls w /\
    last_error w' = if SDL_WebXR_IsAvailable e
                    then "WebXR session already active"
                    else "WebXR is not available".
Proof.
  intros Hg. destruct (SDL_WebXR_IsAvailable e) eqn:Ha.
  - rewrite (RequestSession_occupied e mode refSpaceType w p Ha Hg).
    eexists. split; [reflexivity|]. simpl. auto.
  - rewrite (RequestSession_unavailable e mode refSpaceType w Ha).
    eexists. split; [reflexivity|]. simpl. auto.
Qed.

Lemma RequestSession_while_active_witness :
  g_session requested_world = Some 1%positive /\
  exists w',
    SDL_WebXR_RequestSession env_running SDL_WEBXR_SESSION_INLINE
      SDL_WEBXR_REFSPACE_VIEWER requested_world = Done NULL w' /\
    heap w' = heap requested_world /\
    g_session w' = Some 1%positive /\
    g_mode_supported w' = g_mode_supported requested_world /\
    env_calls w' = env_calls requested_world /\
    last_error w' = "WebXR session already active".
Proof.
  split; [reflexivity|].
  apply (RequestSession_while_active env_running SDL_WEBXR_SESSION_INLINE
           SDL_WEBXR_REFSPACE_VIEWER requested_world 1%positive).
  reflexivity.
Defined.

(** C1 as stated fails: with a session in the slot and an environment that
    no longer reports XR support, the request fails with the unavailability
    error, not with the already-active one. *)
Lemma RequestSession_while_active_counterexample :
  g_session requested_world = Some 1%positive /\
  SDL_WebXR_RequestSession env_unavailable SDL_WEBXR_SESSION_IMMERSIVE_VR
    SDL_WEBXR_REFSPACE_LOCAL_FLOOR requested_world
  = Done NULL (with_last_error "WebXR is not available" requested_world) /\
  last_error (with_last_error "WebXR is not available" requested_world)
  <> "WebXR session already active".
Proof. repeat split. discriminate. Qed.

(** C3.  A request made while the slot is empty, with XR support reported
    and memory available, returns a non-null handle to a block that was not
    live; the slot holds that handle; the session has the requested mode and
    reference space, state REQUESTING, a cleared string and
    [initialized = false]; the other blocks are untouched and the
    environment has been asked once to start the session. *)
Theorem RequestSession_creates e md rst w :
  g_session w = NULL ->
  SDL_WebXR_IsAvailable e = true ->
  calloc_succeeds e = true ->
  exists p w' s,
    SDL_WebXR_RequestSession e md rst w = Done (Some p) w' /\
    heap w !! p = None /\
    g_session w' = Some p /\
    heap w' !! p = Some s /\
    mode s = md /\
    refSpaceType s = rst /\
    state s = SDL_WEBXR_STATE_REQUESTING /\
    initialized s = false /\
    refSpaceTypeString s = repeat NUL REFSPACE_STRING_SIZE /\
    (forall q, q <> p -> heap w' !! q = heap w !! q) /\
    env_calls w' = env_calls w ++ [sdl_webxr_initialize md rst] /\
    last_error w' = last_error w.
Proof.
  intros Hg Ha Hc.
  exists (fresh (dom (heap w))). eexists. exists (new_session md rst).
  split; [apply RequestSession_fresh; assumption|]. simpl.
  split; [apply SDL_calloc_fresh|].
  split; [reflexivity|].
  split; [apply lookup_insert_eq|].
  repeat (split; [reflexivity|]).
  split; [|split; reflexivity].
  intros q Hq. by rewrite lookup_insert_ne.
Qed.

Lemma RequestSession_creates_witness :
  g_session initial_world = NULL /\
  SDL_WebXR_IsAvailable env_running = true /\
  calloc_succeeds env_running = true /\
  exists p w' s,
    SDL_WebXR_RequestSession env_running SDL_WEBXR_SESSION_IMMERSIVE_VR
      SDL_WEBXR_REFSPACE_LOCAL_FLOOR initial_world = Done (Some p) w' /\
    heap initial_world !! p = None /\
    g_session w' = Some p /\
    heap w' !! p = Some s /\
    mode s = SDL_WEBXR_SESSION_IMMERSIVE_VR /\
    refSpaceType s = SDL_WEBXR_REFSPACE_LOCAL_FLOOR /\
    state s = SDL_WEBXR_STATE_REQUESTING /\
    initialized s = false /\
    refSpaceTypeString s = repeat NUL REFSPACE_STRING_SIZE /\
    (forall q, q <> p -> heap w' !! q = heap initial_world !! q) /\
    env_calls w' = env_calls initial_world ++
                   [sdl_webxr_initialize SDL_WEBXR_SESSION_IMMERSIVE_VR
                      SDL_WEBXR_REFSPACE_LOCAL_FLOOR] /\
    last_error w' = last_error initial_world.
Proof.
  repeat (split; [reflexivity|]).
  apply (RequestSession_creates env_running SDL_WEBXR_SESSION_IMMERSIVE_VR
           SDL_WEBXR_REFSPACE_LOCAL_FLOOR initial_world); reflexivity.
Defined.

(* ===================================================================== *)
(** ** Polling the state and ending the session *)
(* ===================================================================== *)

Lemma GetSessionState_null e w :
  SDL_WebXR_GetSessionState e NULL w = Done SDL_WEBXR_STATE_IDLE w.
Proof. reflexivity. Qed.

Lemma GetSessionState_live e p s w :
  heap w !! p = Some s ->
  SDL_WebXR_GetSessionState e (Some p) w
  = Done (sdl_webxr_get_session_state e) (synced e p s w).
Proof.
  intros H. unfold SDL_WebXR_GetSessionState. step_store.
  erewrite bind_Done by (apply load_live; simpl; apply lookup_insert_eq).
  reflexivity.
Qed.

Lemma GetSessionState_dangling e p w :
  heap w !! p = None ->
  SDL_WebXR_GetSessionState e (Some p) w = Undefined (InvalidAccess p).
Proof.
  intros H. unfold SDL_WebXR_GetSessionState.
  by rewrite bind_store_dangling.
Qed.

Lemma EndSession_null w : SDL_WebXR_EndSession NULL w = Done tt w.
Proof. reflexivity. Qed.

Lemma EndSession_live p s w :
  heap w !! p = Some s ->
  SDL_WebXR_EndSession (Some p) w
  = Done tt {| heap := delete p (heap w);
               g_session := slot_after_end p (g_session w);
               g_mode_supported := g_mode_supported w;
               last_error := last_error w;
               env_calls := env_calls w ++ [sdl_webxr_uninitialize] |}.
Proof.
  intros H. unfold SDL_WebXR_EndSession, slot_after_end.
  erewrite bind_Done by reflexivity. rewrite bind_get_world. simpl.
  destruct (decide (g_session w = Some p)) as [Heq|Hne].
  - erewrite bind_Done by reflexivity.
    erewrite SDL_free_live by (simpl; eassumption). reflexivity.
  - rewrite bind_ret.
    erewrite SDL_free_live by (simpl; eassumption). reflexivity.
Qed.

Lemma EndSession_dangling p w :
  heap w !! p = None ->
  SDL_WebXR_EndSession (Some p) w = Undefined (InvalidFree p).
Proof.
  intros H. unfold SDL_WebXR_EndSession.
  erewrite bind_Done by reflexivity. rewrite bind_get_world. simpl.
  destruct (decide (g_session w = Some p)).
  - erewrite bind_Done by reflexivity. by apply SDL_free_dangling.
  - rewrite bind_ret. by apply SDL_free_dangling.
Qed.

(** C4 (amended).  [SDL_WebXR_EndSession] does nothing on [NULL].  On a
    live session it sends the uninitialize command, clears the singleton
    slot exactly when the slot holds the argument, and frees the block,
    leaving the other blocks, the mode cache and the last error alone.
    After that a call with [NULL] (the caller's nulled reference) changes
    nothing, whereas a call with the same handle is not intercepted: the
    block is handed to [SDL_free] a second time. *)
Theorem EndSession_teardown p s w :
  heap w !! p = Some s ->
  SDL_WebXR_EndSession NULL w = Done tt w /\
  exists w',
    SDL_WebXR_EndSession (Some p) w = Done tt w' /\
    env_calls w' = env_calls w ++ [sdl_webxr_uninitialize] /\
    (g_session w = Some p -> g_session w' = NULL) /\
    (g_session w <> Some p -> g_session w' = g_session w) /\
    heap w' !! p = None /\
    (forall q, q <> p -> heap w' !! q = heap w !! q) /\
    g_mode_supported w' = g_mode_supported w /\
    last_error w' = last_error w /\
    SDL_WebXR_EndSession NULL w' = Done tt w' /\
    SDL_WebXR_EndSession (Some p) w' = Undefined (InvalidFree p).
Proof.
  intros H. split; [reflexivity|].
  eexists. split; [apply (EndSession_live p s w H)|]. simpl.
  split; [reflexivity|].
  unfold slot_after_end.
  split; [intros Hg; by rewrite decide_True|].
  split; [intros Hg; by rewrite decide_False|].
  split; [apply lookup_delete_eq|].
  split; [intros q Hq; by apply lookup_delete_ne|].
  repeat (split; [reflexivity|]).
  apply EndSession_dangling. simpl. apply lookup_delete_eq.
Qed.

Lemma EndSession_teardown_witness :
  heap requested_world !! 1%positive = Some requested_session /\
  SDL_WebXR_EndSession NULL requested_world = Done tt requested_world /\
  exists w',
    SDL_WebXR_EndSession (Some 1%positive) requested_world = Done tt w' /\
    env_calls w' = env_calls requested_world ++ [sdl_webxr_uninitialize] /\
    (g_session requested_world = Some 1%positive -> g_session w' = NULL) /\
    (g_session requested_world <> Some 1%positive ->
     g_session w' = g_session requested_world) /\
    heap w' !! 1%positive = None /\
    (forall q, q <> 1%positive -> heap w' !! q = heap requested_world !! q) /\
    g_mode_supported w' = g_mode_supported requested_world /\
    last_error w' = last_error requested_world /\
    SDL_WebXR_EndSession NULL w' = Done tt w' /\
    SDL_WebXR_EndSession (Some 1%positive) w' = Undefined (InvalidFree 1%positive).
Proof.
  split; [reflexivity|].
  apply (EndSession_teardown 1%positive requested_session requested_world).
  reflexivity.
Defined.

(** C4 as stated fails: ending the session of [requested_world] twice with
    the same handle frees its block twice. *)
Lemma EndSession_twice_counterexample :
  SDL_WebXR_EndSession (Some 1%positive) requested_world = Done tt ended_world /\
  SDL_WebXR_EndSession (Some 1%positive) ended_world
  = Undefined (InvalidFree 1%positive).
Proof. split; vm_compute; reflexivity. Qed.

(* ===================================================================== *)
(** ** Beginning a frame *)
(* ===================================================================== *)

Lemma renderable_guard st :
  negb (st =? SDL_WEBXR_STATE_RUNNING) && negb (st =? SDL_WEBXR_STATE_VISIBLE)
  && negb (st =? SDL_WEBXR_STATE_VISIBLE_BLURRED) = negb (renderable st).
Proof. unfold renderable. by rewrite !negb_orb. Qed.

Lemma renderable_iff st :
  renderable st = true <->
  st = SDL_WEBXR_STATE_RUNNING \/ st = SDL_WEBXR_STATE_VISIBLE \/
  st = SDL_WEBXR_STATE_VISIBLE_BLURRED.
Proof.
  unfold renderable. rewrite !orb_true_iff, !Z.eqb_eq. tauto.
Qed.

Lemma BeginFrame_null_session e frame w :
  SDL_WebXR_BeginFrame e NULL frame w = Done (false, frame) w.
Proof. reflexivity. Qed.

Lemma BeginFrame_null_frame e session w :
  SDL_WebXR_BeginFrame e session None w = Done (false, None) w.
Proof. by destruct session. Qed.

Lemma BeginFrame_not_renderable e p s f w :
  heap w !! p = Some s ->
  renderable (sdl_webxr_get_session_state e) = false ->
  SDL_WebXR_BeginFrame e (Some p) (Some f) w = Done (false, Some f) (synced e p s w).
Proof.
  intros H Hr. unfold SDL_WebXR_BeginFrame.
  erewrite bind_Done by (by apply GetSessionState_live).
  rewrite renderable_guard, Hr. reflexivity.
Qed.

Lemma BeginFrame_no_views e p s f w :
  heap w !! p = Some s ->
  renderable (sdl_webxr_get_session_state e) = true ->
  sdl_webxr_get_view_count e <= 0 ->
  SDL_WebXR_BeginFrame e (Some p) (Some f) w
  = Done (false, Some (set_viewCount (sdl_webxr_get_view_count e) f))
         (synced e p s w).
Proof.
  intros H Hr Hc. unfold SDL_WebXR_BeginFrame.
  erewrite bind_Done by (by apply GetSessionState_live).
  rewrite renderable_guard, Hr. simpl.
  destruct (Z.leb_spec (sdl_webxr_get_view_count e) 0); [reflexivity|lia].
Qed.

Lemma BeginFrame_views e p s f w :
  heap w !! p = Some s ->
  renderable (sdl_webxr_get_session_state e) = true ->
  0 < sdl_webxr_get_view_count e ->
  let n := clamped (sdl_webxr_get_view_count e) in
  SDL_WebXR_BeginFrame e (Some p) (Some f) w
  = Done (true, Some {| predictedDisplayTime := 0;
                        viewCount := n;
                        views := fetch_views e (Z.to_nat n) 0 (views f) |})
         (synced e p s w).
Proof.
  intros H Hr Hc n. unfold SDL_WebXR_BeginFrame.
  erewrite bind_Done by (by apply GetSessionState_live).
  rewrite renderable_guard, Hr. simpl.
  destruct (Z.leb_spec (sdl_webxr_get_view_count e) 0); [lia|].
  subst n. unfold clamped.
  destruct (sdl_webxr_get_view_count e >? 2); reflexivity.
Qed.

(** C2.  When the session pointer is null, or the frame pointer is null, or
    the state just copied from the environment is none of RUNNING, VISIBLE
    and VISIBLE_BLURRED (so for IDLE, REQUESTING, READY and ENDED),
    [SDL_WebXR_BeginFrame] returns [false] and the frame buffer is exactly
    as the caller passed it: a zeroed view count stays zero. *)
Theorem BeginFrame_rejects e session frame w :
  session = NULL \/ frame = None \/
  (exists p s, session = Some p /\ heap w !! p = Some s /\
               sdl_webxr_get_session_state e <> SDL_WEBXR_STATE_RUNNING /\
               sdl_webxr_get_session_state e <> SDL_WEBXR_STATE_VISIBLE /\
               sdl_webxr_get_session_state e <> SDL_WEBXR_STATE_VISIBLE_BLURRED) ->
  exists w', SDL_WebXR_BeginFrame e session frame w = Done (false, frame) w'.
Proof.
  intros [-> | [-> | (p & s & -> & Hp & H3 & H4 & H5)]].
  - exists w. apply BeginFrame_null_session.
  - exists w. apply BeginFrame_null_frame.
  - destruct frame as [f|].
    + exists (synced e p s w). apply BeginFrame_not_renderable; [assumption|].
      destruct (renderable _) eqn:Hr; [|reflexivity].
      apply renderable_iff in Hr. tauto.
    + exists w. apply BeginFrame_null_frame.
Qed.

Lemma BeginFrame_rejects_witness :
  (exists p s, Some 1%positive = Some p /\ heap requested_world !! p = Some s /\
     sdl_webxr_get_session_state
       (with_session_state SDL_WEBXR_STATE_REQUESTING env_running)
     <> SDL_WEBXR_STATE_RUNNING /\
     sdl_webxr_get_session_state
       (with_session_state SDL_WEBXR_STATE_REQUESTING env_running)
     <> SDL_WEBXR_STATE_VISIBLE /\
     sdl_webxr_get_session_state
       (with_session_state SDL_WEBXR_STATE_REQUESTING env_running)
     <> SDL_WEBXR_STATE_VISIBLE_BLURRED) /\
  exists w',
    SDL_WebXR_BeginFrame (with_session_state SDL_WEBXR_STATE_REQUESTING env_running)
      (Some 1%positive) (Some zero_frame) requested_world
    = Done (false, Some zero_frame) w'.
Proof.
  assert (H : exists p s, Some 1%positive = Some p /\
     heap requested_world !! p = Some s /\
     sdl_webxr_get_session_state
       (with_session_state SDL_WEBXR_STATE_REQUESTING env_running)
     <> SDL_WEBXR_STATE_RUNNING /\
     sdl_webxr_get_session_state
       (with_session_state SDL_WEBXR_STATE_REQUESTING env_running)
     <> SDL_WEBXR_STATE_VISIBLE /\
     sdl_webxr_get_session_state
       (with_session_state SDL_WEBXR_STATE_REQUESTING env_running)
     <> SDL_WEBXR_STATE_VISIBLE_BLURRED).
  { exists 1%positive, requested_session.
    repeat split; try reflexivity; simpl; discriminate. }
  split; [exact H|].
  apply (BeginFrame_rejects
           (with_session_state SDL_WEBXR_STATE_REQUESTING env_running)
           (Some 1%positive) (Some zero_frame) requested_world).
  right. right. exact H.
Defined.

(** C5.  In a renderable state, a reported view count above 2 is clamped:
    the call returns [true], the frame's view count is exactly 2, and only
    the views 0 and 1 of the fixed array are fetched. *)
Theorem BeginFrame_clamps_views e p s f w :
  heap w !! p = Some s ->
  renderable (sdl_webxr_get_session_state e) = true ->
  2 < sdl_webxr_get_view_count e ->
  exists f' w',
    SDL_WebXR_BeginFrame e (Some p) (Some f) w = Done (true, Some f') w' /\
    viewCount f' = 2 /\
    views f' = alter (fetch_view e 1) 1%nat (alter (fetch_view e 0) 0%nat (views f)) /\
    length (views f') = length (views f).
Proof.
  intros H Hr Hc.
  eexists. eexists. split.
  - apply BeginFrame_views; [eassumption | assumption | lia].
  - unfold clamped.
    destruct (Z.gtb_spec (sdl_webxr_get_view_count e) 2); [|lia].
    simpl. split; [reflexivity|]. split; [reflexivity|].
    by rewrite !length_alter.
Qed.

Lemma BeginFrame_clamps_views_witness :
  heap requested_world !! 1%positive = Some requested_session /\
  renderable (sdl_webxr_get_session_state (with_view_count 3 env_running)) = true /\
  2 < sdl_webxr_get_view_count (with_view_count 3 env_running) /\
  exists f' w',
    SDL_WebXR_BeginFrame (with_view_count 3 env_running) (Some 1%positive)
      (Some zero_frame) requested_world = Done (true, Some f') w' /\
    viewCount f' = 2 /\
    views f' = alter (fetch_view (with_view_count 3 env_running) 1) 1%nat
                 (alter (fetch_view (with_view_count 3 env_running) 0) 0%nat
                    (views zero_frame)) /\
    length (views f') = length (views zero_frame).
Proof.
  split; [reflexivity|]. split; [reflexivity|]. split; [reflexivity|].
  apply (BeginFrame_clamps_views (with_view_count 3 env_running) 1%positive
           requested_session zero_frame requested_world); reflexivity.
Defined.

(** C10.  In a renderable state with a reported view count of zero or
    less, the call returns [false] but has already stored that count in the
    frame's [viewCount] (the other fields of the frame are untouched).  The
    other failure paths, a null session, a null frame or a state that is
    not renderable, return [false] with the frame as it was. *)
Theorem BeginFrame_no_views_writes_count e p s f w :
  heap w !! p = Some s ->
  renderable (sdl_webxr_get_session_state e) = true ->
  sdl_webxr_get_view_count e <= 0 ->
  (exists f' w',
     SDL_WebXR_BeginFrame e (Some p) (Some f) w = Done (false, Some f') w' /\
     viewCount f' = sdl_webxr_get_view_count e /\
     views f' = views f /\
     predictedDisplayTime f' = predictedDisplayTime f) /\
  SDL_WebXR_BeginFrame e NULL (Some f) w = Done (false, Some f) w /\
  SDL_WebXR_BeginFrame e (Some p) None w = Done (false, None) w /\
  (forall e', renderable (sdl_webxr_get_session_state e') = false ->
     exists w', SDL_WebXR_BeginFrame e' (Some p) (Some f) w = Done (false, Some f) w').
Proof.
  intros H Hr Hc. repeat split.
  - eexists. eexists. split; [by apply BeginFrame_no_views|]. simpl. auto.
  - intros e' Hr'. eexists. by apply BeginFrame_not_renderable.
Qed.

Lemma BeginFrame_no_views_writes_count_witness :
  heap requested_world !! 1%positive = Some requested_session /\
  renderable (sdl_webxr_get_session_state (with_view_count (-1) env_running)) = true /\
  sdl_webxr_get_view_count (with_view_count (-1) env_running) <= 0 /\
  exists f' w',
    SDL_WebXR_BeginFrame (with_view_count (-1) env_running) (Some 1%positive)
      (Some zero_frame) requested_world = Done (false, Some f') w' /\
    viewCount f' = -1.
Proof.
  split; [reflexivity|]. split; [reflexivity|]. split; [simpl; lia|].
  destruct (BeginFrame_no_views_writes_count (with_view_count (-1) env_running)
              1%positive requested_session zero_frame requested_world)
    as [(f' & w' & Hrun & Hcount & _) _]; [reflexivity | reflexivity | simpl; lia |].
  exists f', w'. split; [exact Hrun | exact Hcount].
Defined.

(** What one pass of the loop body leaves in each field of a view. *)
Lemma fetch_view_projection e i v :
  projectionMatrix (fetch_view e i v)
  = if fst (sdl_webxr_get_projection_for_view e i (projectionMatrix v)) =? 0
    then zero_matrix
    else snd (sdl_webxr_get_projection_for_view e i (projectionMatrix v)).
Proof.
  unfold fetch_view.
  destruct (sdl_webxr_get_projection_for_view e i (projectionMatrix v)) as [ok m].
  simpl. destruct (sdl_webxr_get_transform_for_view e i (viewMatrix v)) as [ok' m'].
  destruct (sdl_webxr_get_viewport_for_view e i [0; 0; 0; 0]) as [ok'' vp].
  destruct (negb (ok'' =? 0)); reflexivity.
Qed.

Lemma fetch_view_transform e i v :
  viewMatrix (fetch_view e i v)
  = if fst (sdl_webxr_get_transform_for_view e i (viewMatrix v)) =? 0
    then zero_matrix
    else snd (sdl_webxr_get_transform_for_view e i (viewMatrix v)).
Proof.
  unfold fetch_view.
  destruct (sdl_webxr_get_projection_for_view e i (projectionMatrix v)) as [ok m].
  simpl. destruct (sdl_webxr_get_transform_for_view e i (viewMatrix v)) as [ok' m'].
  destruct (sdl_webxr_get_viewport_for_view e i [0; 0; 0; 0]) as [ok'' vp].
  destruct (negb (ok'' =? 0)); reflexivity.
Qed.

Lemma fetch_view_viewport e i v :
  (viewportX (fetch_view e i v), viewportY (fetch_view e i v),
   viewportWidth (fetch_view e i v), viewportHeight (fetch_view e i v))
  = let r := sdl_webxr_get_viewport_for_view e i [0; 0; 0; 0] in
    if fst r =? 0 then (0, 0, 0, 0)
    else (nth 0 (snd r) 0, nth 1 (snd r) 0, nth 2 (snd r) 0, nth 3 (snd r) 0).
Proof.
  unfold fetch_view.
  destruct (sdl_webxr_get_projection_for_view e i (projectionMatrix v)) as [ok m].
  destruct (sdl_webxr_get_transform_for_view e i _) as [ok' m'].
  destruct (sdl_webxr_get_viewport_for_view e i [0; 0; 0; 0]) as [ok'' vp].
  simpl. destruct (ok'' =? 0); reflexivity.
Qed.

(** The loop over a two-element array. *)
Lemma fetch_views_pair e n v0 v1 :
  0 < n ->
  fetch_views e (Z.to_nat (clamped n)) 0 [v0; v1]
  = if n =? 1 then [fetch_view e 0 v0; v1]
    else [fetch_view e 0 v0; fetch_view e 1 v1].
Proof.
  intros Hn. unfold clamped.
  destruct (Z.gtb_spec n 2).
  - destruct (Z.eqb_spec n 1); [lia|]. reflexivity.
  - assert (n = 1 \/ n = 2) as [-> | ->] by lia; reflexivity.
Qed.

(** C6.  For a positive reported view count (in a renderable state, with
    the frame's two-element view array) the call returns [true], and every
    view below the clamped count holds, field by field, either what its own
    fetch delivered or zeros when that fetch failed: the projection matrix
    and the eye matrix are each the fetched matrix or the 16-zero matrix,
    the viewport is the fetched rectangle or four zeros.  In particular, if
    at least two views are reported and the projection fetch succeeds for
    view 0 and fails for view 1, the frame has view 0's projection as
    fetched and view 1's projection all zeros. *)
Theorem BeginFrame_degrades_per_field e p s f w v0 v1 :
  heap w !! p = Some s ->
  renderable (sdl_webxr_get_session_state e) = true ->
  0 < sdl_webxr_get_view_count e ->
  views f = [v0; v1] ->
  exists f' w',
    SDL_WebXR_BeginFrame e (Some p) (Some f) w = Done (true, Some f') w' /\
    (forall i v,
       0 <= i < clamped (sdl_webxr_get_view_count e) ->
       views f !! Z.to_nat i = Some v ->
       exists v',
         views f' !! Z.to_nat i = Some v' /\
         projectionMatrix v'
         = (let r := sdl_webxr_get_projection_for_view e i (projectionMatrix v) in
            if fst r =? 0 then zero_matrix else snd r) /\
         viewMatrix v'
         = (let r := sdl_webxr_get_transform_for_view e i (viewMatrix v) in
            if fst r =? 0 then zero_matrix else snd r) /\
         (viewportX v', viewportY v', viewportWidth v', viewportHeight v')
         = (let r := sdl_webxr_get_viewport_for_view e i [0; 0; 0; 0] in
            if fst r =? 0 then (0, 0, 0, 0)
            else (nth 0 (snd r) 0, nth 1 (snd r) 0,
                  nth 2 (snd r) 0, nth 3 (snd r) 0))) /\
    (2 <= sdl_webxr_get_view_count e ->
     fst (sdl_webxr_get_projection_for_view e 0 (projectionMatrix v0)) <> 0 ->
     fst (sdl_webxr_get_projection_for_view e 1 (projectionMatrix v1)) = 0 ->
     exists a b,
       views f' = [a; b] /\
       projectionMatrix a
       = snd (sdl_webxr_get_projection_for_view e 0 (projectionMatrix v0)) /\
       projectionMatrix b = repeat 0 16).
Proof.
  intros H Hr Hc Hv.
  eexists. eexists. split; [by apply BeginFrame_views|]. simpl.
  rewrite Hv, fetch_views_pair by assumption.
  split.
  - intros i v Hi Hl.
    assert (Hcl : clamped (sdl_webxr_get_view_count e) <= 2).
    { unfold clamped. destruct (Z.gtb_spec (sdl_webxr_get_view_count e) 2); lia. }
    assert (Hi' : i = 0 \/ (i = 1 /\ sdl_webxr_get_view_count e <> 1)).
    { unfold clamped in Hi.
      destruct (Z.gtb_spec (sdl_webxr_get_view_count e) 2); lia. }
    exists (fetch_view e i v).
    split; [|split; [apply fetch_view_projection|
             split; [apply fetch_view_transform | apply fetch_view_viewport]]].
    destruct Hi' as [-> | [-> Hne]]; simpl in Hl; injection Hl as <-.
    + destruct (sdl_webxr_get_view_count e =? 1); reflexivity.
    + destruct (Z.eqb_spec (sdl_webxr_get_view_count e) 1); [lia|reflexivity].
  - intros H2 Hok0 Hfail1.
    destruct (Z.eqb_spec (sdl_webxr_get_view_count e) 1); [lia|].
    exists (fetch_view e 0 v0), (fetch_view e 1 v1).
    split; [reflexivity|].
    rewrite !fetch_view_projection, Hfail1. simpl.
    destruct (Z.eqb_spec (fst (sdl_webxr_get_projection_for_view e 0
                                 (projectionMatrix v0))) 0); [contradiction|].
    split; reflexivity.
Qed.

Lemma BeginFrame_degrades_per_field_witness :
  heap requested_world !! 1%positive = Some requested_session /\
  renderable (sdl_webxr_get_session_state env_projection_fails_for_1) = true /\
  0 < sdl_webxr_get_view_count env_projection_fails_for_1 /\
  views zero_frame = [zero_view; zero_view] /\
  exists f' w' a b,
    SDL_WebXR_BeginFrame env_projection_fails_for_1 (Some 1%positive)
      (Some zero_frame) requested_world = Done (true, Some f') w' /\
    views f' = [a; b] /\
    projectionMatrix a = repeat 7 16 /\
    projectionMatrix b = repeat 0 16.
Proof.
  split; [reflexivity|]. split; [reflexivity|]. split; [reflexivity|].
  split; [reflexivity|].
  destruct (BeginFrame_degrades_per_field env_projection_fails_for_1 1%positive
              requested_session zero_frame requested_world zero_view zero_view)
    as (f' & w' & Hrun & _ & Hcase); try reflexivity.
  destruct Hcase as (a & b & Hab & Ha & Hb);
    [simpl; lia | simpl; discriminate | reflexivity |].
  exists f', w', a, b. repeat split; assumption.
Defined.

(* ===================================================================== *)
(** ** C strings and the bounded copy *)
(* ===================================================================== *)

Lemma c_chars_no_NUL s : NUL ∉ c_chars s.
Proof.
  induction s as [|c s IH]; simpl.
  - apply not_elem_of_nil.
  - destruct (Ascii.eqb_spec c NUL) as [->|Hc].
    + apply not_elem_of_nil.
    + apply not_elem_of_cons. split; [congruence | exact IH].
Qed.

(** A string without NUL is passed whole. *)
Lemma c_chars_whole s :
  NUL ∉ list_ascii_of_string s -> string_of_list_ascii (c_chars s) = s.
Proof.
  induction s as [|c s IH]; simpl; [reflexivity|].
  intros H. apply not_elem_of_cons in H as [Hc Hs].
  destruct (Ascii.eqb_spec c NUL) as [->|_]; [congruence|].
  simpl. by rewrite IH.
Qed.

(** Reading back characters followed by a terminator. *)
Lemma c_string_of_terminated l rest :
  NUL ∉ l -> c_string_of (l ++ NUL :: rest) = string_of_list_ascii l.
Proof.
  induction l as [|c l IH]; simpl; intros H.
  - reflexivity.
  - apply not_elem_of_cons in H as [Hc Hl].
    destruct (Ascii.eqb_spec c NUL) as [->|_]; [congruence|].
    by rewrite IH.
Qed.

(** The buffer [SDL_strlcpy] leaves: the copied prefix, the terminator, and
    the old bytes behind it. *)
Lemma SDL_strlcpy_layout dst src m :
  (m < length dst)%nat ->
  SDL_strlcpy dst src (S m)
  = take m (c_chars src) ++ NUL :: drop (S (Nat.min (SDL_strlen src) m)) dst.
Proof.
  intros Hm. unfold SDL_strlcpy, SDL_strlen.
  set (cs := c_chars src). set (len := Nat.min (length cs) m).
  assert (Htake : take len cs = take m cs).
  { subst len. destruct (Nat.le_ge_cases (length cs) m) as [Hle|Hge].
    - rewrite Nat.min_l by exact Hle. by rewrite !take_ge by lia.
    - by rewrite Nat.min_r by exact Hge. }
  assert (Hlen : length (take len cs) = len).
  { rewrite length_take. subst len. lia. }
  rewrite <- Htake.
  rewrite insert_app_r_alt by lia.
  rewrite Hlen, Nat.sub_diag.
  destruct (drop len dst) as [|c rest] eqn:Hd.
  - apply (f_equal length) in Hd. rewrite length_drop in Hd. simpl in Hd.
    subst len. lia.
  - simpl. f_equal. f_equal.
    replace (S len) with (len + 1)%nat by lia.
    rewrite <- drop_drop, Hd. reflexivity.
Qed.

(** The copy never changes the size of the destination array. *)
Lemma SDL_strlcpy_length dst src maxlen :
  (maxlen <= length dst)%nat ->
  length (SDL_strlcpy dst src maxlen) = length dst.
Proof.
  intros Hm. destruct maxlen as [|m]; [reflexivity|].
  unfold SDL_strlcpy. rewrite length_insert, length_app, length_take, length_drop.
  unfold SDL_strlen. lia.
Qed.

(** The C string stored is the source capped to [maxlen - 1] characters. *)
Lemma SDL_strlcpy_reads dst src m :
  (m < length dst)%nat ->
  c_string_of (SDL_strlcpy dst src (S m))
  = string_of_list_ascii (take m (c_chars src)).
Proof.
  intros Hm. rewrite SDL_strlcpy_layout by exact Hm.
  apply c_string_of_terminated.
  intros Hin. apply (c_chars_no_NUL src).
  eapply subseteq_take. exact Hin.
Qed.

(** A source that does not fit fills the whole array: [maxlen - 1]
    characters and the terminator. *)
Lemma SDL_strlcpy_truncates dst src m :
  length dst = S m ->
  (m < SDL_strlen src)%nat ->
  SDL_strlcpy dst src (S m) = take m (c_chars src) ++ [NUL].
Proof.
  intros Hd Hs. rewrite SDL_strlcpy_layout by lia.
  rewrite Nat.min_r by lia. by rewrite drop_ge by lia.
Qed.

(* ===================================================================== *)
(** ** Session callbacks *)
(* ===================================================================== *)

Lemma on_session_started_live r p s w :
  g_session w = Some p ->
  heap w !! p = Some s ->
  webxr_on_session_started r w
  = Done tt (with_heap (<[p := started_session r s]> (heap w)) w).
Proof.
  intros Hg H. unfold webxr_on_session_started.
  rewrite bind_get_world, Hg.
  destruct r as [r|].
  - do 2 step_store.
    erewrite store_live by (simpl; apply lookup_insert_eq).
    unfold with_heap. simpl. rewrite !insert_insert_eq. reflexivity.
  - rewrite bind_ret. step_store.
    erewrite store_live by (simpl; apply lookup_insert_eq).
    unfold with_heap. simpl. rewrite !insert_insert_eq. reflexivity.
Qed.

Lemma on_session_ended_live p s w :
  g_session w = Some p ->
  heap w !! p = Some s ->
  webxr_on_session_ended w
  = Done tt (with_heap (<[p := stopped_session SDL_WEBXR_STATE_ENDED s]> (heap w)) w).
Proof.
  intros Hg H. unfold webxr_on_session_ended.
  rewrite bind_get_world, Hg. step_store.
  erewrite store_live by (simpl; apply lookup_insert_eq).
  unfold with_heap. simpl. rewrite !insert_insert_eq. reflexivity.
Qed.

Lemma on_session_failed_live message p s w :
  g_session w = Some p ->
  heap w !! p = Some s ->
  webxr_on_session_failed (Some message) w
  = Done tt {| heap := <[p := stopped_session SDL_WEBXR_STATE_IDLE s]> (heap w);
               g_session := g_session w;
               g_mode_supported := g_mode_supported w;
               last_error := session_failed_error message;
               env_calls := env_calls w |}.
Proof.
  intros Hg H. unfold webxr_on_session_failed.
  rewrite bind_get_world, Hg. do 2 step_store.
  unfold SDL_SetError, with_last_error, with_heap. simpl.
  rewrite !insert_insert_eq, Hg. reflexivity.
Qed.

(** C7.  When the failure callback arrives with a message while the slot
    holds a live session, it returns normally; the session's state is IDLE
    and its [initialized] flag is false, its other fields and the slot are
    unchanged, and the last error is "WebXR session failed: " followed by
    the callback's message (the whole message when it contains no NUL). *)
Theorem on_session_failed_reports message p s w :
  g_session w = Some p ->
  heap w !! p = Some s ->
  exists w' s',
    webxr_on_session_failed (Some message) w = Done tt w' /\
    g_session w' = Some p /\
    heap w' !! p = Some s' /\
    state s' = SDL_WEBXR_STATE_IDLE /\
    initialized s' = false /\
    mode s' = mode s /\
    refSpaceType s' = refSpaceType s /\
    refSpaceTypeString s' = refSpaceTypeString s /\
    last_error w'
    = ("WebXR session failed: " ++ string_of_list_ascii (c_chars message))%string /\
    (NUL ∉ list_ascii_of_string message ->
     last_error w' = ("WebXR session failed: " ++ message)%string).
Proof.
  intros Hg H.
  eexists. exists (stopped_session SDL_WEBXR_STATE_IDLE s).
  split; [by apply on_session_failed_live|]. simpl.
  split; [exact Hg|].
  split; [apply lookup_insert_eq|].
  repeat (split; [reflexivity|]).
  intros Hn. unfold session_failed_error. by rewrite c_chars_whole.
Qed.

Lemma on_session_failed_reports_witness :
  g_session requested_world = Some 1%positive /\
  heap requested_world !! 1%positive = Some requested_session /\
  exists w' s',
    webxr_on_session_failed (Some "user denied") requested_world = Done tt w' /\
    g_session w' = Some 1%positive /\
    heap w' !! 1%positive = Some s' /\
    state s' = SDL_WEBXR_STATE_IDLE /\
    initialized s' = false /\
    last_error w' = "WebXR session failed: user denied".
Proof.
  split; [reflexivity|]. split; [reflexivity|].
  destruct (on_session_failed_reports "user denied" 1%positive
              requested_session requested_world)
    as (w' & s' & Hrun & Hg & Hs & Hst & Hi & _ & _ & _ & Herr & _);
    [reflexivity | reflexivity |].
  exists w', s'. repeat split; assumption.
Defined.

(** C8 (amended).  When the success callback arrives with a
    reference-space string while the slot holds a live session, the session
    stores state RUNNING and [initialized = true], and its 32-byte array
    holds the string capped to 31 characters and terminated: "local-floor"
    is stored whole, and a string of more than 31 characters is stored as
    its first 31 characters followed by NUL, the array keeping its size.
    A later [SDL_WebXR_GetSessionState] overwrites the state with the one
    the environment reports and returns that one, RUNNING exactly when the
    environment reports RUNNING, without touching the string. *)
Theorem on_session_started_then_poll e r p s w :
  g_session w = Some p ->
  heap w !! p = Some s ->
  length (refSpaceTypeString s) = REFSPACE_STRING_SIZE ->
  exists w1 s1,
    webxr_on_session_started (Some r) w = Done tt w1 /\
    heap w1 !! p = Some s1 /\
    state s1 = SDL_WEBXR_STATE_RUNNING /\
    initialized s1 = true /\
    length (refSpaceTypeString s1) = REFSPACE_STRING_SIZE /\
    c_string_of (refSpaceTypeString s1)
    = string_of_list_ascii (take 31 (c_chars r)) /\
    (r = "local-floor" -> c_string_of (refSpaceTypeString s1) = "local-floor") /\
    ((31 < SDL_strlen r)%nat ->
     refSpaceTypeString s1 = take 31 (c_chars r) ++ [NUL]) /\
    exists w2 s2,
      SDL_WebXR_GetSessionState e (Some p) w1
      = Done (sdl_webxr_get_session_state e) w2 /\
      heap w2 !! p = Some s2 /\
      state s2 = sdl_webxr_get_session_state e /\
      refSpaceTypeString s2 = refSpaceTypeString s1 /\
      initialized s2 = true.
Proof.
  intros Hg H Hlen.
  eexists. exists (started_session (Some r) s).
  split; [by apply on_session_started_live|].
  cbn [heap with_heap state initialized refSpaceTypeString started_session].
  split; [apply lookup_insert_eq|].
  split; [reflexivity|]. split; [reflexivity|].
  split; [rewrite SDL_strlcpy_length; [exact Hlen | rewrite Hlen; reflexivity]|].
  assert (Hread : c_string_of (SDL_strlcpy (refSpaceTypeString s) r REFSPACE_STRING_SIZE)
                  = string_of_list_ascii (take 31 (c_chars r))).
  { apply SDL_strlcpy_reads. rewrite Hlen. unfold REFSPACE_STRING_SIZE. lia. }
  split; [exact Hread|].
  split; [intros ->; rewrite Hread; reflexivity|].
  split; [intros Hlong; by apply SDL_strlcpy_truncates|].
  eexists. eexists.
  split; [apply GetSessionState_live; simpl; apply lookup_insert_eq|].
  cbn [heap with_heap synced].
  split; [apply lookup_insert_eq|]. repeat split.
Qed.

Lemma on_session_started_then_poll_witness :
  g_session requested_world = Some 1%positive /\
  heap requested_world !! 1%positive = Some requested_session /\
  length (refSpaceTypeString requested_session) = REFSPACE_STRING_SIZE /\
  exists w1 s1,
    webxr_on_session_started (Some "local-floor") requested_world = Done tt w1 /\
    heap w1 !! 1%positive = Some s1 /\
    state s1 = SDL_WEBXR_STATE_RUNNING /\
    c_string_of (refSpaceTypeString s1) = "local-floor" /\
    exists w2,
      SDL_WebXR_GetSessionState env_running (Some 1%positive) w1
      = Done SDL_WEBXR_STATE_RUNNING w2.
Proof.
  split; [reflexivity|]. split; [reflexivity|]. split; [reflexivity|].
  destruct (on_session_started_then_poll env_running "local-floor" 1%positive
              requested_session requested_world)
    as (w1 & s1 & Hrun & Hs1 & Hst & _ & _ & _ & Hstr & _ & w2 & s2 & Hpoll & _);
    [reflexivity | reflexivity | reflexivity |].
  exists w1, s1. repeat split; try assumption.
  - apply Hstr. reflexivity.
  - exists w2. exact Hpoll.
Defined.

(** C8 as stated fails: after the success callback with "local-floor", an
    environment that reports VISIBLE makes [SDL_WebXR_GetSessionState]
    return VISIBLE, not RUNNING. *)
Lemma GetSessionState_after_start_counterexample :
  webxr_on_session_started (Some "local-floor") requested_world
  = Done tt running_world /\
  (exists w2,
     SDL_WebXR_GetSessionState
       (with_session_state SDL_WEBXR_STATE_VISIBLE env_running)
       (Some 1%positive) running_world
     = Done SDL_WEBXR_STATE_VISIBLE w2) /\
  SDL_WEBXR_STATE_VISIBLE <> SDL_WEBXR_STATE_RUNNING.
Proof.
  split; [vm_compute; reflexivity|].
  split; [|discriminate].
  eexists. vm_compute. reflexivity.
Qed.

(* ===================================================================== *)
(** ** The singleton slot never dangles *)
(* ===================================================================== *)

Lemma slot_live_initial : slot_live initial_world.
Proof. intros p Hp. discriminate. Qed.

Lemma RequestSession_no_memory e md rst w :
  SDL_WebXR_IsAvailable e = true ->
  g_session w = NULL ->
  calloc_succeeds e = false ->
  SDL_WebXR_RequestSession e md rst w = Done NULL (with_g_session NULL w).
Proof.
  intros Ha Hg Hc. unfold SDL_WebXR_RequestSession. rewrite Ha. simpl.
  rewrite bind_get_world, Hg. unfold SDL_calloc. rewrite Hc. reflexivity.
Qed.

Lemma RequestSession_slot_live e md rst w r w' :
  slot_live w ->
  SDL_WebXR_RequestSession e md rst w = Done r w' ->
  slot_live w'.
Proof.
  intros Hw Hrun.
  destruct (SDL_WebXR_IsAvailable e) eqn:Ha.
  - destruct (g_session w) as [q|] eqn:Hg.
    + rewrite (RequestSession_occupied e md rst w q Ha Hg) in Hrun.
      injection Hrun as _ <-. exact Hw.
    + destruct (calloc_succeeds e) eqn:Hc.
      * rewrite RequestSession_fresh in Hrun by assumption.
        injection Hrun as _ <-. intros p [= <-]. simpl.
        rewrite lookup_insert_eq. eauto.
      * rewrite RequestSession_no_memory in Hrun by assumption.
        injection Hrun as _ <-. intros p Hp. discriminate.
  - rewrite RequestSession_unavailable in Hrun by assumption.
    injection Hrun as _ <-. exact Hw.
Qed.

Lemma EndSession_slot_live session w w' :
  slot_live w ->
  SDL_WebXR_EndSession session w = Done tt w' ->
  slot_live w'.
Proof.
  intros Hw Hrun. destruct session as [p|].
  - destruct (heap w !! p) as [s|] eqn:Hp.
    + rewrite (EndSession_live p s w Hp) in Hrun. injection Hrun as <-.
      intros q. simpl. unfold slot_after_end.
      destruct (decide (g_session w = Some p)); [discriminate|].
      intros Hq. rewrite lookup_delete_ne by congruence. by apply Hw.
    + rewrite EndSession_dangling in Hrun by assumption. discriminate.
  - injection Hrun as <-. exact Hw.
Qed.

(** With a live slot the three session callbacks always return, and keep
    the slot live. *)
Lemma callbacks_slot_live w :
  slot_live w ->
  (forall r, exists w', webxr_on_session_started r w = Done tt w' /\ slot_live w') /\
  (exists w', webxr_on_session_ended w = Done tt w' /\ slot_live w') /\
  (forall m, exists w', webxr_on_session_failed m w = Done tt w' /\ slot_live w').
Proof.
  intros Hw. destruct (g_session w) as [p|] eqn:Hg.
  - destruct (Hw p Hg) as [s Hs]. repeat split.
    + intros r. eexists. split; [by apply on_session_started_live|].
      intros q. simpl. rewrite Hg. intros [= <-]. rewrite lookup_insert_eq. eauto.
    + eexists. split; [by apply on_session_ended_live|].
      intros q. simpl. rewrite Hg. intros [= <-]. rewrite lookup_insert_eq. eauto.
    + intros [m|].
      * eexists. split; [by apply on_session_failed_live|].
        intros q. simpl. rewrite Hg. intros [= <-]. rewrite lookup_insert_eq. eauto.
      * eexists. split.
        { unfold webxr_on_session_failed. rewrite bind_get_world, Hg.
          do 2 step_store. reflexivity. }
        intros q. simpl. rewrite Hg. intros [= <-].
        rewrite lookup_insert_eq. eauto.
  - repeat split.
    + intros r. exists w. split; [|exact Hw].
      unfold webxr_on_session_started. by rewrite bind_get_world, Hg.
    + exists w. split; [|exact Hw].
      unfold webxr_on_session_ended. by rewrite bind_get_world, Hg.
    + intros m. exists w. split; [|exact Hw].
      unfold webxr_on_session_failed. by rewrite bind_get_world, Hg.
Qed.

(* ===================================================================== *)
(** ** The mode-support cache *)
(* ===================================================================== *)

Lemma IsSessionModeSupported_unavailable e m w :
  SDL_WebXR_IsAvailable e = false ->
  SDL_WebXR_IsSessionModeSupported e m w = Done false w.
Proof. intros H. unfold SDL_WebXR_IsSessionModeSupported. by rewrite H. Qed.

Lemma IsSessionModeSupported_cached e m w :
  SDL_WebXR_IsAvailable e = true ->
  0 <= m < 3 ->
  0 <= mode_entry (g_mode_supported w) m ->
  SDL_WebXR_IsSessionModeSupported e m w
  = Done (negb (mode_entry (g_mode_supported w) m =? 0)) w.
Proof.
  intros Ha Hm Hv. unfold SDL_WebXR_IsSessionModeSupported.
  rewrite Ha. simpl. rewrite bind_get_world.
  destruct (Z.leb_spec 0 m); [|lia].
  destruct (Z.ltb_spec m 3); [|lia].
  destruct (Z.leb_spec 0 (mode_entry (g_mode_supported w) m)); [|lia].
  reflexivity.
Qed.

Lemma IsSessionModeSupported_unknown e m w :
  SDL_WebXR_IsAvailable e = true ->
  ~ (0 <= m < 3 /\ 0 <= mode_entry (g_mode_supported w) m) ->
  SDL_WebXR_IsSessionModeSupported e m w
  = Done (m =? SDL_WEBXR_SESSION_IMMERSIVE_VR)
         (with_env_calls (env_calls w ++ [sdl_webxr_is_session_supported m]) w).
Proof.
  intros Ha Hn. unfold SDL_WebXR_IsSessionModeSupported.
  rewrite Ha. simpl. rewrite bind_get_world.
  destruct (Z.leb_spec 0 m); simpl;
    [destruct (Z.ltb_spec m 3); simpl;
       [destruct (Z.leb_spec 0 (mode_entry (g_mode_supported w) m)); [lia|] |] |];
    simpl; erewrite bind_Done by reflexivity;
    destruct (m =? SDL_WEBXR_SESSION_IMMERSIVE_VR); reflexivity.
Qed.

Lemma mode_supported_callback_in_range m v w :
  0 <= m < 3 ->
  mode_supported_callback m v w
  = Done tt (with_g_mode_supported (<[Z.to_nat m := v]> (g_mode_supported w)) w).
Proof.
  intros Hm. unfold mode_supported_callback.
  destruct (Z.leb_spec 0 m); [|lia]. destruct (Z.ltb_spec m 3); [|lia].
  reflexivity.
Qed.

Lemma mode_supported_callback_out_of_range m v w :
  ~ 0 <= m < 3 -> mode_supported_callback m v w = Done tt w.
Proof.
  intros Hm. unfold mode_supported_callback.
  destruct (Z.leb_spec 0 m); [|reflexivity].
  destruct (Z.ltb_spec m 3); [lia|reflexivity].
Qed.

Lemma mode_entry_insert_eq (l : list Z) m v :
  0 <= m -> (Z.to_nat m < length l)%nat ->
  mode_entry (<[Z.to_nat m := v]> l) m = v.
Proof.
  intros Hm Hl. unfold mode_entry.
  by rewrite nth_lookup, list_lookup_insert_eq.
Qed.

Lemma mode_entry_insert_ne (l : list Z) m m' v :
  0 <= m -> 0 <= m' -> m <> m' ->
  mode_entry (<[Z.to_nat m' := v]> l) m = mode_entry l m.
Proof.
  intros Hm Hm' Hne. unfold mode_entry.
  rewrite !nth_lookup, list_lookup_insert_ne; [reflexivity|lia].
Qed.

(** A mode either has a usable cache entry or it has none. *)
Lemma classic_entry m w :
  (0 <= m < 3 /\ 0 <= mode_entry (g_mode_supported w) m) \/
  ~ (0 <= m < 3 /\ 0 <= mode_entry (g_mode_supported w) m).
Proof. destruct (decide (0 <= m < 3 /\ 0 <= mode_entry (g_mode_supported w) m)); auto. Qed.

(** One operation that is not an answer for [m] keeps a cached entry for
    [m] and sends no probe of [m]; a poll of [m] gives the cached answer. *)
Lemma run_cache_op_latched m v o w :
  0 <= m < 3 ->
  0 <= v ->
  mode_entry (g_mode_supported w) m = v ->
  answers_mode m o = false ->
  exists r w',
    run_cache_op o w = Done r w' /\
    mode_entry (g_mode_supported w') m = v /\
    probes_sent m w' = probes_sent m w /\
    (forall e, o = Poll e m -> r = Some (cached_answer e v)).
Proof.
  intros Hm Hv Hentry Hans. destruct o as [e m'|m' v']; simpl in *.
  - destruct (SDL_WebXR_IsAvailable e) eqn:Ha.
    + destruct (Z.eq_dec m' m) as [->|Hne].
      * eexists. eexists.
        split; [erewrite bind_Done
                  by (apply IsSessionModeSupported_cached; [assumption|lia|lia]);
                reflexivity|].
        split; [assumption|]. split; [reflexivity|].
        intros e' [= <-]. unfold cached_answer. by rewrite Ha, Hentry.
      * destruct (classic_entry m' w) as [Hc|Hu].
        -- eexists. eexists.
           split; [erewrite bind_Done
                     by (apply IsSessionModeSupported_cached; [assumption|lia|lia]);
                   reflexivity|].
           split; [assumption|]. split; [reflexivity|].
           intros e' [= _ Heq]. contradiction.
        -- eexists. eexists.
           split; [erewrite bind_Done
                     by (by apply IsSessionModeSupported_unknown);
                   reflexivity|].
           simpl. split; [assumption|].
           split.
           { unfold probes_sent. simpl. rewrite List.filter_app. simpl.
             destruct (Z.eqb_spec m' m); [contradiction|]. apply app_nil_r. }
           intros e' [= _ Heq]. contradiction.
    + eexists. eexists.
      split; [erewrite bind_Done
                by (by apply IsSessionModeSupported_unavailable);
              reflexivity|].
      split; [assumption|]. split; [reflexivity|].
      intros e' [= <- _]. unfold cached_answer. by rewrite Ha.
  - apply Z.eqb_neq in Hans.
    destruct (decide (0 <= m' < 3)) as [Hin|Hout].
    + eexists. eexists.
      split; [erewrite bind_Done
                by (by apply mode_supported_callback_in_range);
              reflexivity|].
      simpl. split; [|split; [reflexivity|discriminate]].
      rewrite mode_entry_insert_ne; [assumption|lia|lia|congruence].
    + eexists. eexists.
      split; [erewrite bind_Done
                by (by apply mode_supported_callback_out_of_range);
              reflexivity|].
      split; [assumption|]. split; [reflexivity|discriminate].
Qed.

(** The same over any sequence of polls and answers that holds no answer
    for [m]. *)
Lemma run_cache_ops_latched m v os : forall w,
  0 <= m < 3 ->
  0 <= v ->
  mode_entry (g_mode_supported w) m = v ->
  forallb (fun o => negb (answers_mode m o)) os = true ->
  exists rs w',
    run_cache_ops os w = Done rs w' /\
    mode_entry (g_mode_supported w') m = v /\
    probes_sent m w' = probes_sent m w /\
    (forall (k : nat) e, os !! k = Some (Poll e m) ->
                         rs !! k = Some (Some (cached_answer e v))).
Proof.
  induction os as [|o os IH]; intros w Hm Hv Hentry Hall.
  - exists [], w. repeat split; try assumption. intros k e Hk. discriminate.
  - simpl in Hall. apply andb_true_iff in Hall as [Ho Hos].
    apply negb_true_iff in Ho.
    destruct (run_cache_op_latched m v o w Hm Hv Hentry Ho)
      as (r & w1 & Hrun & Hentry1 & Hprobes1 & Hr).
    destruct (IH w1 Hm Hv Hentry1 Hos) as (rs & w2 & Hruns & Hentry2 & Hprobes2 & Hrs).
    exists (r :: rs), w2.
    split.
    { simpl. erewrite bind_Done by exact Hrun.
      erewrite bind_Done by exact Hruns. reflexivity. }
    split; [assumption|]. split; [congruence|].
    intros [|k] e Hk; simpl in *.
    + injection Hk as ->. by rewrite (Hr e eq_refl).
    + by apply Hrs.
Qed.

(** C9 (amended).  Once the callback has stored the environment's answer
    (zero or positive) for one of the three modes, the entry is a latch with
    respect to every later poll of any mode and every later answer for
    another mode: the run goes through, the entry still holds the answer, no
    probe of that mode is sent, and each poll of that mode returns the
    cached answer when the environment reports XR support and [false] when
    it does not (availability is checked before the cache).  Before the
    answer, a poll with XR support reported sends a probe and returns the
    placeholder: [true] for immersive VR only. *)
Theorem IsSessionModeSupported_latched m supported os w :
  0 <= m < 3 ->
  0 <= supported ->
  length (g_mode_supported w) = 3%nat ->
  forallb (fun o => negb (answers_mode m o)) os = true ->
  (forall e, SDL_WebXR_IsAvailable e = true ->
             mode_entry (g_mode_supported w) m < 0 ->
             SDL_WebXR_IsSessionModeSupported e m w
             = Done (m =? SDL_WEBXR_SESSION_IMMERSIVE_VR)
                 (with_env_calls
                    (env_calls w ++ [sdl_webxr_is_session_supported m]) w)) /\
  exists w1,
    mode_supported_callback m supported w = Done tt w1 /\
    mode_entry (g_mode_supported w1) m = supported /\
    env_calls w1 = env_calls w /\
    exists rs w2,
      run_cache_ops os w1 = Done rs w2 /\
      mode_entry (g_mode_supported w2) m = supported /\
      probes_sent m w2 = probes_sent m w /\
      (forall (k : nat) e, os !! k = Some (Poll e m) ->
         rs !! k = Some (Some (if SDL_WebXR_IsAvailable e
                               then negb (supported =? 0) else false))).
Proof.
  intros Hm Hv Hlen Hall. split.
  { intros e Ha Hneg. apply IsSessionModeSupported_unknown; [assumption|lia]. }
  eexists. split; [by apply mode_supported_callback_in_range|].
  assert (Hentry : mode_entry
            (g_mode_supported
               (with_g_mode_supported
                  (<[Z.to_nat m := supported]> (g_mode_supported w)) w)) m
          = supported).
  { simpl. apply mode_entry_insert_eq; lia. }
  split; [exact Hentry|]. split; [reflexivity|].
  destruct (run_cache_ops_latched m supported os _ Hm Hv Hentry Hall)
    as (rs & w2 & Hrun & Hentry2 & Hprobes & Hrs).
  exists rs, w2. repeat split; assumption.
Qed.

Lemma IsSessionModeSupported_latched_witness :
  0 <= SDL_WEBXR_SESSION_IMMERSIVE_VR < 3 /\
  0 <= 1 /\
  length (g_mode_supported probed_world) = 3%nat /\
  forallb (fun o => negb (answers_mode SDL_WEBXR_SESSION_IMMERSIVE_VR o))
    [Poll env_running SDL_WEBXR_SESSION_IMMERSIVE_VR;
     Poll env_running SDL_WEBXR_SESSION_INLINE;
     Answer SDL_WEBXR_SESSION_INLINE 0;
     Poll env_running SDL_WEBXR_SESSION_IMMERSIVE_VR] = true /\
  exists rs w2,
    mode_supported_callback SDL_WEBXR_SESSION_IMMERSIVE_VR 1 probed_world
    = Done tt cached_world /\
    run_cache_ops [Poll env_running SDL_WEBXR_SESSION_IMMERSIVE_VR;
                   Poll env_running SDL_WEBXR_SESSION_INLINE;
                   Answer SDL_WEBXR_SESSION_INLINE 0;
                   Poll env_running SDL_WEBXR_SESSION_IMMERSIVE_VR] cached_world
    = Done rs w2 /\
    rs !! 0%nat = Some (Some true) /\
    rs !! 3%nat = Some (Some true) /\
    probes_sent SDL_WEBXR_SESSION_IMMERSIVE_VR w2
    = probes_sent SDL_WEBXR_SESSION_IMMERSIVE_VR probed_world.
Proof.
  split; [unfold SDL_WEBXR_SESSION_IMMERSIVE_VR; lia|].
  split; [lia|]. split; [reflexivity|]. split; [reflexivity|].
  destruct (IsSessionModeSupported_latched SDL_WEBXR_SESSION_IMMERSIVE_VR 1
              [Poll env_running SDL_WEBXR_SESSION_IMMERSIVE_VR;
               Poll env_running SDL_WEBXR_SESSION_INLINE;
               Answer SDL_WEBXR_SESSION_INLINE 0;
               Poll env_running SDL_WEBXR_SESSION_IMMERSIVE_VR] probed_world)
    as (_ & w1 & Hcb & _ & _ & rs & w2 & Hrun & _ & Hprobes & Hrs);
    [unfold SDL_WEBXR_SESSION_IMMERSIVE_VR; lia | lia | reflexivity | reflexivity |].
  assert (Hw1 : w1 = cached_world).
  { assert (Hc : mode_supported_callback SDL_WEBXR_SESSION_IMMERSIVE_VR 1 probed_world
                 = Done tt cached_world) by reflexivity.
    rewrite Hc in Hcb. by injection Hcb as <-. }
  subst w1.
  exists rs, w2.
  split; [reflexivity|]. split; [exact Hrun|].
  split; [exact (Hrs 0%nat env_running eq_refl)|].
  split; [exact (Hrs 3%nat env_running eq_refl)|].
  exact Hprobes.
Defined.

(** C9 as stated fails: immersive VR is polled (placeholder [true], probe
    sent), the environment answers that it is supported, and a later poll
    made while the environment reports no XR support returns [false]
    although the cached answer is "supported". *)
Lemma IsSessionModeSupported_cached_counterexample :
  SDL_WebXR_IsSessionModeSupported env_running SDL_WEBXR_SESSION_IMMERSIVE_VR
    initial_world = Done true probed_world /\
  mode_supported_callback SDL_WEBXR_SESSION_IMMERSIVE_VR 1 probed_world
  = Done tt cached_world /\
  mode_entry (g_mode_supported cached_world) SDL_WEBXR_SESSION_IMMERSIVE_VR = 1 /\
  SDL_WebXR_IsSessionModeSupported env_unavailable SDL_WEBXR_SESSION_IMMERSIVE_VR
    cached_world = Done false cached_world.
Proof. repeat split. Qed.

(* ===================================================================== *)
(** ** Footprints of the entry points *)
(* ===================================================================== *)

Lemma single_owner_live w q s :
  single_owner w -> heap w !! q = Some s ->
  g_session w = Some q /\ heap w = {[ q := s ]}.
Proof.
  unfold single_owner. intros Ho Hq. destruct (g_session w) as [p|].
  - destruct Ho as [s0 Hs0]. rewrite Hs0 in Hq.
    apply lookup_singleton_Some in Hq as [-> ->]. auto.
  - rewrite Ho in Hq. by rewrite lookup_empty in Hq.
Qed.

Lemma single_owner_slot w p :
  single_owner w -> g_session w = Some p -> exists s, heap w !! p = Some s.
Proof.
  unfold single_owner. intros Ho Hg. rewrite Hg in Ho.
  destruct Ho as [s Hs]. exists s. rewrite Hs. apply lookup_singleton_eq.
Qed.

(** A poll touches nothing but the trace, to which it adds at most one
    probe of the polled mode. *)
Lemma IsSessionModeSupported_footprint e m w :
  exists b w',
    SDL_WebXR_IsSessionModeSupported e m w = Done b w' /\
    heap w' = heap w /\ g_session w' = g_session w /\
    g_mode_supported w' = g_mode_supported w /\
    last_error w' = last_error w /\
    (env_calls w' = env_calls w \/
     env_calls w' = env_calls w ++ [sdl_webxr_is_session_supported m]).
Proof.
  destruct (SDL_WebXR_IsAvailable e) eqn:Ha.
  - destruct (classic_entry m w) as [[Hm Hv]|Hu].
    + eexists. eexists.
      split; [by apply IsSessionModeSupported_cached|]. auto 10.
    + eexists. eexists.
      split; [by apply IsSessionModeSupported_unknown|]. simpl. auto 10.
  - eexists. eexists.
    split; [by apply IsSessionModeSupported_unavailable|]. auto 10.
Qed.

(** [SDL_WebXR_BeginFrame] changes the state only by synchronising the
    session it was given. *)
Lemma BeginFrame_world e session frame w r w' :
  SDL_WebXR_BeginFrame e session frame w = Done r w' ->
  w' = w \/
  exists p s, session = Some p /\ heap w !! p = Some s /\ w' = synced e p s w.
Proof.
  intros Hrun. destruct session as [p|]; [|left; by injection Hrun as _ <-].
  destruct frame as [f|]; [|left; by injection Hrun as _ <-].
  destruct (heap w !! p) as [s|] eqn:Hp.
  - right. exists p, s. split; [reflexivity|]. split; [exact Hp|].
    destruct (renderable (sdl_webxr_get_session_state e)) eqn:Hr.
    + destruct (Z.le_gt_cases (sdl_webxr_get_view_count e) 0).
      * rewrite (BeginFrame_no_views e p s f w) in Hrun by assumption.
        by injection Hrun as _ <-.
      * rewrite (BeginFrame_views e p s f w) in Hrun by (assumption || lia).
        by injection Hrun as _ <-.
    + rewrite (BeginFrame_not_renderable e p s f w) in Hrun by assumption.
      by injection Hrun as _ <-.
  - unfold SDL_WebXR_BeginFrame in Hrun.
    erewrite bind_Undefined in Hrun by (by apply GetSessionState_dangling).
    discriminate.
Qed.

Lemma BindGPUDevice_footprint session device w :
  exists b : bool,
    SDL_WebXR_BindGPUDevice session device w
    = Done b (if b then w else with_last_error "Invalid session or device" w) /\
    (b = true <-> session <> NULL /\ device <> None).
Proof.
  destruct session as [p|], device as [d|]; simpl.
  - exists true. split; [reflexivity|].
    split; [intros _; split; discriminate | reflexivity].
  - exists false. split; [reflexivity|].
    split; [discriminate | intros [_ H]; congruence].
  - exists false. split; [reflexivity|].
    split; [discriminate | intros [H _]; unfold NULL in H; congruence].
  - exists false. split; [reflexivity|].
    split; [discriminate | intros [H _]; unfold NULL in H; congruence].
Qed.

Lemma sessions_started_app w c :
  length (List.filter is_initialize (env_calls w ++ [c]))
  = (sessions_started w + if is_initialize c then 1 else 0)%nat.
Proof.
  unfold sessions_started. rewrite List.filter_app, length_app. simpl.
  destruct (is_initialize c); reflexivity.
Qed.

Lemma sessions_stopped_app w c :
  length (List.filter is_uninitialize (env_calls w ++ [c]))
  = (sessions_stopped w + if is_uninitialize c then 1 else 0)%nat.
Proof.
  unfold sessions_stopped. rewrite List.filter_app, length_app. simpl.
  destruct (is_uninitialize c); reflexivity.
Qed.

(** Replacing the session of the slot keeps the invariant. *)
Lemma module_inv_update w p s :
  module_inv w -> g_session w = Some p ->
  module_inv (with_heap (<[p := s]> (heap w)) w).
Proof.
  intros (Ho & Hl & Hb) Hg. split; [|split; assumption].
  unfold single_owner in *. simpl. rewrite Hg in *.
  destruct Ho as [s0 Hs0]. exists s. rewrite Hs0. apply insert_singleton_eq.
Qed.

Lemma module_inv_last_error w msg :
  module_inv w -> module_inv (with_last_error msg w).
Proof. intros H. exact H. Qed.

Lemma module_inv_callback cb w w' :
  module_inv w -> run_callback cb w = Done tt w' -> module_inv w'.
Proof.
  intros Hinv Hrun. pose proof Hinv as (Ho & Hl & Hb).
  destruct cb as [r| |m| |m v]; simpl in Hrun.
  - destruct (g_session w) as [p|] eqn:Hg.
    + destruct (single_owner_slot w p Ho Hg) as [s Hs].
      rewrite (on_session_started_live r p s w Hg Hs) in Hrun.
      injection Hrun as <-. by apply module_inv_update.
    + unfold webxr_on_session_started in Hrun.
      rewrite bind_get_world, Hg in Hrun. by injection Hrun as <-.
  - destruct (g_session w) as [p|] eqn:Hg.
    + destruct (single_owner_slot w p Ho Hg) as [s Hs].
      rewrite (on_session_ended_live p s w Hg Hs) in Hrun.
      injection Hrun as <-. by apply module_inv_update.
    + unfold webxr_on_session_ended in Hrun.
      rewrite bind_get_world, Hg in Hrun. by injection Hrun as <-.
  - destruct (g_session w) as [p|] eqn:Hg.
    + destruct (single_owner_slot w p Ho Hg) as [s Hs].
      destruct m as [m|].
      * rewrite (on_session_failed_live m p s w Hg Hs) in Hrun.
        injection Hrun as <-.
        change (module_inv
                  (with_last_error (session_failed_error m)
                     (with_heap (<[p := stopped_session SDL_WEBXR_STATE_IDLE s]>
                                   (heap w)) w))).
        apply module_inv_last_error. by apply (module_inv_update w p).
      * unfold webxr_on_session_failed in Hrun.
        rewrite bind_get_world, Hg in Hrun.
        erewrite bind_store_live in Hrun by eassumption.
        erewrite bind_store_live in Hrun by (simpl; apply lookup_insert_eq).
        injection Hrun as <-. unfold with_heap at 1. simpl.
        rewrite insert_insert_eq. by apply (module_inv_update w p).
    + unfold webxr_on_session_failed in Hrun.
      rewrite bind_get_world, Hg in Hrun. by injection Hrun as <-.
  - by injection Hrun as <-.
  - destruct (decide (0 <= m < 3)) as [Hin|Hout].
    + rewrite mode_supported_callback_in_range in Hrun by assumption.
      injection Hrun as <-. split; [exact Ho|]. split; [|exact Hb].
      simpl. by rewrite length_insert.
    + rewrite mode_supported_callback_out_of_range in Hrun by assumption.
      by injection Hrun as <-.
Qed.

(* ===================================================================== *)
(** ** Invariants of every run of the module *)
(* ===================================================================== *)

(** The invariant only reads the heap, the slot, the size of the cache and
    the start and stop commands. *)
Lemma module_inv_frame w w' :
  heap w' = heap w ->
  g_session w' = g_session w ->
  g_mode_supported w' = g_mode_supported w ->
  sessions_started w' = sessions_started w ->
  sessions_stopped w' = sessions_stopped w ->
  module_inv w -> module_inv w'.
Proof.
  intros Hh Hg Hc Hs Ht (Ho & Hl & Hb).
  unfold module_inv, single_owner in *. rewrite Hh, Hg, Hc, Hs, Ht. auto.
Qed.

Lemma module_inv_initial : module_inv initial_world.
Proof. repeat split. Qed.

Lemma module_inv_step c w w' :
  module_inv w -> run_step c w = Done tt w' -> module_inv w'.
Proof.
  intros Hinv Hrun. pose proof Hinv as (Ho & Hl & Hb).
  destruct c as [e m|e m r|e session|session|session device|e session frame
                 |session|cb]; simpl in Hrun.
  - destruct (IsSessionModeSupported_footprint e m w)
      as (b & w1 & Hp & Hh & Hg & Hc & _ & Hcalls).
    erewrite bind_Done in Hrun by exact Hp. injection Hrun as <-.
    apply (module_inv_frame w w1); try assumption.
    + unfold sessions_started.
      destruct Hcalls as [-> | ->]; [reflexivity|].
      rewrite List.filter_app. simpl. by rewrite app_nil_r.
    + unfold sessions_stopped.
      destruct Hcalls as [-> | ->]; [reflexivity|].
      rewrite List.filter_app. simpl. by rewrite app_nil_r.
  - destruct (SDL_WebXR_IsAvailable e) eqn:Ha.
    + destruct (g_session w) as [q|] eqn:Hg.
      * erewrite bind_Done in Hrun by (by eapply RequestSession_occupied).
        injection Hrun as <-. by apply module_inv_last_error.
      * destruct (calloc_succeeds e) eqn:Hc.
        -- erewrite bind_Done in Hrun by (by apply RequestSession_fresh).
           injection Hrun as <-.
           unfold single_owner in Ho. rewrite Hg in Ho.
           split; [|split].
           ++ unfold single_owner. simpl. eexists. rewrite Ho.
              apply insert_empty.
           ++ exact Hl.
           ++ unfold sessions_started, sessions_stopped in *. simpl.
              rewrite !List.filter_app, !length_app. simpl. lia.
        -- erewrite bind_Done in Hrun by (by apply RequestSession_no_memory).
           injection Hrun as <-.
           apply (module_inv_frame w); auto.
    + erewrite bind_Done in Hrun by (by apply RequestSession_unavailable).
      injection Hrun as <-. by apply module_inv_last_error.
  - destruct session as [q|].
    + destruct (heap w !! q) as [s|] eqn:Hq.
      * erewrite bind_Done in Hrun by (by apply GetSessionState_live).
        injection Hrun as <-.
        apply module_inv_update; [assumption|].
        by destruct (single_owner_live w q s Ho Hq).
      * erewrite bind_Undefined in Hrun by (by apply GetSessionState_dangling).
        discriminate.
    + by injection Hrun as <-.
  - destruct session as [q|].
    + destruct (heap w !! q) as [s|] eqn:Hq.
      * rewrite (EndSession_live q s w Hq) in Hrun. injection Hrun as <-.
        destruct (single_owner_live w q s Ho Hq) as [Hg Hheap].
        split; [|split].
        -- unfold single_owner, slot_after_end. simpl.
           rewrite Hg, decide_True by reflexivity.
           rewrite Hheap. apply delete_singleton_eq.
        -- exact Hl.
        -- unfold sessions_started, sessions_stopped, slot_after_end in *. simpl.
           rewrite !List.filter_app, !length_app. simpl.
           rewrite Hg in *. rewrite decide_True by reflexivity. simpl. lia.
      * rewrite EndSession_dangling in Hrun by assumption. discriminate.
    + by injection Hrun as <-.
  - destruct (BindGPUDevice_footprint session device w) as (b & Hp & _).
    erewrite bind_Done in Hrun by exact Hp. injection Hrun as <-.
    destruct b; [assumption | by apply module_inv_last_error].
  - destruct (SDL_WebXR_BeginFrame e session frame w) as [r w1|] eqn:Hp;
      [|rewrite (bind_Undefined _ _ _ _ Hp) in Hrun; discriminate].
    rewrite (bind_Done _ _ _ _ _ Hp) in Hrun. injection Hrun as <-.
    destruct (BeginFrame_world e session frame w r w1 Hp)
      as [-> | (p & s & -> & Hs & ->)]; [assumption|].
    apply module_inv_update; [assumption|].
    by destruct (single_owner_live w p s Ho Hs).
  - destruct session; by injection Hrun as <-.
  - by apply (module_inv_callback cb w).
Qed.

Lemma module_inv_steps cs : forall w w',
  module_inv w -> run_steps cs w = Done tt w' -> module_inv w'.
Proof.
  induction cs as [|c cs IH]; intros w w' Hinv Hrun; simpl in Hrun.
  - by injection Hrun as <-.
  - destruct (run_step c w) as [[] w1|] eqn:Hc;
      [|rewrite (bind_Undefined _ _ _ _ Hc) in Hrun; discriminate].
    rewrite (bind_Done _ _ _ _ _ Hc) in Hrun.
    eapply IH; [|exact Hrun]. by apply (module_inv_step c w).
Qed.

(** X1.  After any sequence of API calls and callbacks on a freshly loaded
    module that ran without undefined behaviour, the heap holds exactly one
    session, the one the singleton slot points to, or no session at all
    when the slot is [NULL]: a second session is never allocated and none
    is leaked. *)
Theorem run_steps_single_owner cs w' :
  run_steps cs initial_world = Done tt w' ->
  match g_session w' with
  | None => heap w' = ∅
  | Some p => exists s, heap w' = {[ p := s ]}
  end.
Proof.
  intros Hrun.
  destruct (module_inv_steps cs initial_world w' module_inv_initial Hrun)
    as (Ho & _). exact Ho.
Qed.

Lemma run_steps_single_owner_witness :
  run_steps [CallRequestSession env_running SDL_WEBXR_SESSION_IMMERSIVE_VR
               SDL_WEBXR_REFSPACE_LOCAL_FLOOR;
             CallRequestSession env_running SDL_WEBXR_SESSION_INLINE
               SDL_WEBXR_REFSPACE_VIEWER;
             Js (OnSessionStarted (Some "local-floor"));
             CallBeginFrame env_running (Some 1%positive) (Some zero_frame)]
    initial_world
  = Done tt (with_last_error "WebXR session already active" running_world) /\
  exists s,
    heap (with_last_error "WebXR session already active" running_world)
    = {[ 1%positive := s ]}.
Proof.
  assert (Hrun :
    run_steps [CallRequestSession env_running SDL_WEBXR_SESSION_IMMERSIVE_VR
                 SDL_WEBXR_REFSPACE_LOCAL_FLOOR;
               CallRequestSession env_running SDL_WEBXR_SESSION_INLINE
                 SDL_WEBXR_REFSPACE_VIEWER;
               Js (OnSessionStarted (Some "local-floor"));
               CallBeginFrame env_running (Some 1%positive) (Some zero_frame)]
      initial_world
    = Done tt (with_last_error "WebXR session already active" running_world)).
  { vm_compute. reflexivity. }
  split; [exact Hrun|].
  exact (run_steps_single_owner _ _ Hrun).
Defined.

(** X2.  On every such run the start and stop commands sent to the
    environment are balanced: the number of [sdl_webxr_initialize] calls is
    the number of [sdl_webxr_uninitialize] calls plus one when the slot
    holds a session, and equal to it when the slot is empty. *)
Theorem run_steps_commands_balanced cs w' :
  run_steps cs initial_world = Done tt w' ->
  sessions_started w'
  = (sessions_stopped w' + match g_session w' with Some _ => 1 | None => 0 end)%nat.
Proof.
  intros Hrun.
  destruct (module_inv_steps cs initial_world w' module_inv_initial Hrun)
    as (_ & _ & Hb). exact Hb.
Qed.

Lemma run_steps_commands_balanced_witness :
  run_steps [CallRequestSession env_running SDL_WEBXR_SESSION_IMMERSIVE_VR
               SDL_WEBXR_REFSPACE_LOCAL_FLOOR;
             CallGetSessionState env_running (Some 1%positive);
             CallEndSession (Some 1%positive);
             CallEndSession NULL]
    initial_world
  = Done tt ended_world /\
  sessions_started ended_world = (sessions_stopped ended_world + 0)%nat.
Proof.
  assert (Hrun :
    run_steps [CallRequestSession env_running SDL_WEBXR_SESSION_IMMERSIVE_VR
                 SDL_WEBXR_REFSPACE_LOCAL_FLOOR;
               CallGetSessionState env_running (Some 1%positive);
               CallEndSession (Some 1%positive);
               CallEndSession NULL]
      initial_world
    = Done tt ended_world).
  { vm_compute. reflexivity. }
  split; [exact Hrun|].
  exact (run_steps_commands_balanced _ _ Hrun).
Defined.

(* ===================================================================== *)
(** ** The session life cycle *)
(* ===================================================================== *)

(** X3.  Requesting a session and ending it with the returned handle is a
    round trip: the heap, the slot, the mode cache and the last error are
    as before the request, the environment has received one start and one
    stop command, and the module accepts a new request. *)
Theorem request_then_end_round_trip e md rst w :
  g_session w = NULL ->
  SDL_WebXR_IsAvailable e = true ->
  calloc_succeeds e = true ->
  exists p w1 w2,
    SDL_WebXR_RequestSession e md rst w = Done (Some p) w1 /\
    SDL_WebXR_EndSession (Some p) w1 = Done tt w2 /\
    heap w2 = heap w /\
    g_session w2 = NULL /\
    g_mode_supported w2 = g_mode_supported w /\
    last_error w2 = last_error w /\
    env_calls w2
    = env_calls w ++ [sdl_webxr_initialize md rst; sdl_webxr_uninitialize] /\
    forall md' rst', exists p' w3,
      SDL_WebXR_RequestSession e md' rst' w2 = Done (Some p') w3.
Proof.
  intros Hg Ha Hc.
  eexists. eexists. eexists.
  split; [by apply RequestSession_fresh|].
  split; [eapply EndSession_live; simpl; apply lookup_insert_eq|].
  cbn [heap g_session g_mode_supported last_error env_calls].
  split; [apply delete_insert_id, SDL_calloc_fresh|].
  split; [unfold slot_after_end; by rewrite decide_True|].
  split; [reflexivity|]. split; [reflexivity|].
  split; [by rewrite <- app_assoc|].
  intros md' rst'. eexists. eexists.
  apply RequestSession_fresh; [assumption| |assumption].
  simpl. unfold slot_after_end. by rewrite decide_True.
Qed.

Lemma request_then_end_round_trip_witness :
  g_session initial_world = NULL /\
  SDL_WebXR_IsAvailable env_running = true /\
  calloc_succeeds env_running = true /\
  exists p w1 w2,
    SDL_WebXR_RequestSession env_running SDL_WEBXR_SESSION_IMMERSIVE_VR
      SDL_WEBXR_REFSPACE_LOCAL_FLOOR initial_world = Done (Some p) w1 /\
    SDL_WebXR_EndSession (Some p) w1 = Done tt w2 /\
    heap w2 = heap initial_world /\
    g_session w2 = NULL.
Proof.
  repeat (split; [reflexivity|]).
  destruct (request_then_end_round_trip env_running
              SDL_WEBXR_SESSION_IMMERSIVE_VR SDL_WEBXR_REFSPACE_LOCAL_FLOOR
              initial_world)
    as (p & w1 & w2 & H1 & H2 & H3 & H4 & _); try reflexivity.
  exists p, w1, w2. auto.
Defined.

(** X4.  A session that ended on its own or whose request failed still
    occupies the singleton slot: after the end callback or the failure
    callback a new request is refused with "WebXR session already active",
    and it is accepted once [SDL_WebXR_EndSession] has been called on the
    old handle. *)
Theorem finished_session_blocks_requests cb e md rst p s w :
  cb = OnSessionEnded \/ (exists m, cb = OnSessionFailed m) ->
  g_session w = Some p ->
  heap w !! p = Some s ->
  SDL_WebXR_IsAvailable e = true ->
  calloc_succeeds e = true ->
  exists w1 w2 p' w3,
    run_callback cb w = Done tt w1 /\
    SDL_WebXR_RequestSession e md rst w1
    = Done NULL (with_last_error "WebXR session already active" w1) /\
    SDL_WebXR_EndSession (Some p) w1 = Done tt w2 /\
    SDL_WebXR_RequestSession e md rst w2 = Done (Some p') w3.
Proof.
  intros Hcb Hg Hs Ha Hc.
  assert (Hrun : exists w1, run_callback cb w = Done tt w1 /\
                            g_session w1 = Some p /\
                            exists s1, heap w1 !! p = Some s1).
  { destruct Hcb as [-> | [[m|] ->]]; simpl.
    - eexists. split; [by apply on_session_ended_live|].
      simpl. split; [assumption|]. eexists. apply lookup_insert_eq.
    - eexists. split; [by apply on_session_failed_live|].
      simpl. split; [assumption|]. eexists. apply lookup_insert_eq.
    - eexists. split.
      { unfold webxr_on_session_failed. rewrite bind_get_world, Hg.
        do 2 step_store. reflexivity. }
      simpl. split; [assumption|]. eexists. apply lookup_insert_eq. }
  destruct Hrun as (w1 & Hrun & Hg1 & s1 & Hs1).
  exists w1. eexists. eexists. eexists.
  split; [exact Hrun|].
  split; [by eapply RequestSession_occupied|].
  split; [by eapply EndSession_live|].
  apply RequestSession_fresh; [assumption| |assumption].
  simpl. unfold slot_after_end. by rewrite Hg1, decide_True.
Qed.

Lemma finished_session_blocks_requests_witness :
  g_session requested_world = Some 1%positive /\
  heap requested_world !! 1%positive = Some requested_session /\
  exists w1 w2 p' w3,
    run_callback (OnSessionFailed (Some "user denied")) requested_world
    = Done tt w1 /\
    SDL_WebXR_RequestSession env_running SDL_WEBXR_SESSION_IMMERSIVE_VR
      SDL_WEBXR_REFSPACE_LOCAL_FLOOR w1
    = Done NULL (with_last_error "WebXR session already active" w1) /\
    SDL_WebXR_EndSession (Some 1%positive) w1 = Done tt w2 /\
    SDL_WebXR_RequestSession env_running SDL_WEBXR_SESSION_IMMERSIVE_VR
      SDL_WEBXR_REFSPACE_LOCAL_FLOOR w2 = Done (Some p') w3.
Proof.
  split; [reflexivity|]. split; [reflexivity|].
  apply (finished_session_blocks_requests (OnSessionFailed (Some "user denied"))
           env_running SDL_WEBXR_SESSION_IMMERSIVE_VR
           SDL_WEBXR_REFSPACE_LOCAL_FLOOR 1%positive requested_session
           requested_world); try reflexivity.
  right. eexists. reflexivity.
Defined.

(** X5.  Once the session of the slot has been ended, a session callback
    that arrives late (success, end, failure with or without message, or
    frame) finds the slot empty and changes nothing: it touches no freed
    memory and sets no error. *)
Theorem late_callbacks_ignored cb p s w :
  (forall m v, cb <> OnModeSupported m v) ->
  g_session w = Some p ->
  heap w !! p = Some s ->
  exists w1,
    SDL_WebXR_EndSession (Some p) w = Done tt w1 /\
    run_callback cb w1 = Done tt w1.
Proof.
  intros Hcb Hg Hs.
  eexists. split; [by eapply EndSession_live|].
  destruct cb as [r| |m| |m v]; simpl.
  - unfold webxr_on_session_started. rewrite bind_get_world. simpl.
    unfold slot_after_end. by rewrite Hg, decide_True.
  - unfold webxr_on_session_ended. rewrite bind_get_world. simpl.
    unfold slot_after_end. by rewrite Hg, decide_True.
  - unfold webxr_on_session_failed. rewrite bind_get_world. simpl.
    unfold slot_after_end. by rewrite Hg, decide_True.
  - reflexivity.
  - by destruct (Hcb m v).
Qed.

Lemma late_callbacks_ignored_witness :
  g_session requested_world = Some 1%positive /\
  heap requested_world !! 1%positive = Some requested_session /\
  exists w1,
    SDL_WebXR_EndSession (Some 1%positive) requested_world = Done tt w1 /\
    run_callback OnSessionEnded w1 = Done tt w1.
Proof.
  split; [reflexivity|]. split; [reflexivity|].
  apply (late_callbacks_ignored OnSessionEnded 1%positive requested_session
           requested_world); [discriminate | reflexivity | reflexivity].
Defined.

(** X6.  The end callback marks the session of the slot ENDED and not
    initialized but does not free it: the block stays live with its mode,
    reference space and string, the slot still holds it, and neither the
    last error nor the command trace changes.  The failure callback without
    a message does the same with state IDLE, leaving the last error as it
    was. *)
Theorem stop_callbacks_keep_session p s w :
  g_session w = Some p ->
  heap w !! p = Some s ->
  webxr_on_session_ended w
  = Done tt (with_heap (<[p := {| mode := mode s;
                                  refSpaceType := refSpaceType s;
                                  state := SDL_WEBXR_STATE_ENDED;
                                  refSpaceTypeString := refSpaceTypeString s;
                                  initialized := false |}]> (heap w)) w) /\
  webxr_on_session_failed None w
  = Done tt (with_heap (<[p := {| mode := mode s;
                                  refSpaceType := refSpaceType s;
                                  state := SDL_WEBXR_STATE_IDLE;
                                  refSpaceTypeString := refSpaceTypeString s;
                                  initialized := false |}]> (heap w)) w).
Proof.
  intros Hg Hs. split.
  - by apply on_session_ended_live.
  - unfold webxr_on_session_failed. rewrite bind_get_world, Hg.
    do 2 step_store.
    unfold ret, with_heap. simpl. by rewrite insert_insert_eq.
Qed.

Lemma stop_callbacks_keep_session_witness :
  g_session running_world = Some 1%positive /\
  (exists s, heap running_world !! 1%positive = Some s) /\
  exists w',
    webxr_on_session_ended running_world = Done tt w' /\
    g_session w' = Some 1%positive /\
    (state <$> heap w' !! 1%positive) = Some SDL_WEBXR_STATE_ENDED.
Proof.
  split; [reflexivity|]. split; [eexists; reflexivity|].
  destruct (stop_callbacks_keep_session 1%positive
              {| mode := SDL_WEBXR_SESSION_IMMERSIVE_VR;
                 refSpaceType := SDL_WEBXR_REFSPACE_LOCAL_FLOOR;
                 state := SDL_WEBXR_STATE_RUNNING;
                 refSpaceTypeString := local_floor_buffer;
                 initialized := true |} running_world)
    as [Hended _]; [reflexivity | reflexivity |].
  eexists. split; [exact Hended|]. split; reflexivity.
Defined.

(** X7.  [SDL_WebXR_GetSessionState] on a live session returns the state the
    environment reports and stores it in the session; the session's mode,
    reference space, string and [initialized] flag, the other blocks, the
    slot, the cache, the last error and the trace are unchanged, and a
    second call with the same environment changes nothing more.  On [NULL]
    it returns IDLE without consulting the environment or changing
    anything. *)
Theorem GetSessionState_syncs_state_only e p s w :
  heap w !! p = Some s ->
  SDL_WebXR_GetSessionState e (Some p) w
  = Done (sdl_webxr_get_session_state e)
      (with_heap (<[p := {| mode := mode s;
                            refSpaceType := refSpaceType s;
                            state := sdl_webxr_get_session_state e;
                            refSpaceTypeString := refSpaceTypeString s;
                            initialized := initialized s |}]> (heap w)) w) /\
  (forall w1,
     SDL_WebXR_GetSessionState e (Some p) w = Done (sdl_webxr_get_session_state e) w1 ->
     SDL_WebXR_GetSessionState e (Some p) w1
     = Done (sdl_webxr_get_session_state e) w1) /\
  (forall e', SDL_WebXR_GetSessionState e' NULL w = Done SDL_WEBXR_STATE_IDLE w).
Proof.
  intros Hs. split; [by apply GetSessionState_live|].
  split; [|reflexivity].
  intros w1 Hrun. rewrite (GetSessionState_live e p s w Hs) in Hrun.
  injection Hrun as <-.
  erewrite GetSessionState_live by (simpl; apply lookup_insert_eq).
  unfold synced, with_heap. simpl. by rewrite insert_insert_eq.
Qed.

Lemma GetSessionState_syncs_state_only_witness :
  heap requested_world !! 1%positive = Some requested_session /\
  exists w1,
    SDL_WebXR_GetSessionState env_running (Some 1%positive) requested_world
    = Done SDL_WEBXR_STATE_RUNNING w1 /\
    SDL_WebXR_GetSessionState env_running (Some 1%positive) w1
    = Done SDL_WEBXR_STATE_RUNNING w1.
Proof.
  split; [reflexivity|].
  destruct (GetSessionState_syncs_state_only env_running 1%positive
              requested_session requested_world) as (H1 & H2 & _);
    [reflexivity|].
  eexists. split; [exact H1|]. apply H2. exact H1.
Defined.

(* ===================================================================== *)
(** ** Where the last error comes from *)
(* ===================================================================== *)












(* ===================================================================== *)
(** ** More on frames *)
(* ===================================================================== *)

Lemma fetch_views_length e n : forall i vs,
  length (fetch_views e n i vs) = length vs.
Proof.
  induction n as [|n IH]; intros i vs; simpl; [reflexivity|].
  by rewrite IH, length_alter.
Qed.

(** X9.  With a live session and a frame buffer, [SDL_WebXR_BeginFrame]
    returns [true] exactly when the state reported by the environment is
    RUNNING, VISIBLE or VISIBLE_BLURRED and the reported view count is
    positive.  The frame it then delivers has a predicted display time of
    zero, a view count equal to the reported count capped at 2, hence 1 or
    2 and never beyond the two-element view array, whose size is kept. *)
Theorem BeginFrame_succeeds_iff e p s f w :
  heap w !! p = Some s ->
  exists (ok : bool) f' w',
    SDL_WebXR_BeginFrame e (Some p) (Some f) w = Done (ok, Some f') w' /\
    (ok = true <->
     renderable (sdl_webxr_get_session_state e) = true /\
     0 < sdl_webxr_get_view_count e) /\
    (ok = true ->
     predictedDisplayTime f' = 0 /\
     viewCount f' = Z.min (sdl_webxr_get_view_count e) 2 /\
     1 <= viewCount f' <= 2 /\
     length (views f') = length (views f)).
Proof.
  intros Hs.
  destruct (renderable (sdl_webxr_get_session_state e)) eqn:Hr.
  - destruct (Z.le_gt_cases (sdl_webxr_get_view_count e) 0) as [Hc|Hc].
    + exists false. eexists. eexists.
      split; [by apply BeginFrame_no_views|].
      split; [|discriminate]. split; [discriminate|]. intros [_ H]. lia.
    + exists true. eexists. eexists.
      split; [apply BeginFrame_views; [eassumption | assumption | lia]|].
      split; [split; auto with zarith|]. intros _. simpl.
      split; [reflexivity|].
      assert (Hcl : clamped (sdl_webxr_get_view_count e)
                    = Z.min (sdl_webxr_get_view_count e) 2).
      { unfold clamped.
        destruct (Z.gtb_spec (sdl_webxr_get_view_count e) 2); lia. }
      split; [exact Hcl|]. split; [lia|]. apply fetch_views_length.
  - exists false. eexists. eexists.
    split; [by apply BeginFrame_not_renderable|].
    split; [|discriminate]. split; [discriminate|]. intros [H _]. discriminate.
Qed.

Lemma BeginFrame_succeeds_iff_witness :
  heap requested_world !! 1%positive = Some requested_session /\
  exists f' w',
    SDL_WebXR_BeginFrame (with_view_count 7 env_running) (Some 1%positive)
      (Some zero_frame) requested_world = Done (true, Some f') w' /\
    viewCount f' = 2.
Proof.
  split; [reflexivity|].
  destruct (BeginFrame_succeeds_iff (with_view_count 7 env_running) 1%positive
              requested_session zero_frame requested_world)
    as (ok & f' & w' & Hrun & Hiff & Hpost); [reflexivity|].
  assert (Hok : ok = true).
  { apply Hiff. split; [reflexivity | simpl; lia]. }
  subst ok. exists f', w'. split; [exact Hrun|].
  destruct (Hpost eq_refl) as (_ & Hc & _). exact Hc.
Defined.

(** X10.  [SDL_WebXR_BeginFrame] is a synchronisation point whether it
    succeeds or not: with a live session and a frame buffer the state after
    the call is the state before it with the session's stored state replaced
    by the environment's, in all three outcomes.  With a [NULL] session or a
    [NULL] frame nothing changes at all, and the session is not even read. *)
Theorem BeginFrame_world_effect e p s f w :
  heap w !! p = Some s ->
  (exists r, SDL_WebXR_BeginFrame e (Some p) (Some f) w
             = Done r (synced e p s w)) /\
  (forall frame, exists r, SDL_WebXR_BeginFrame e NULL frame w = Done r w) /\
  (forall q, exists r, SDL_WebXR_BeginFrame e (Some q) None w = Done r w).
Proof.
  intros Hs. split; [|split].
  - destruct (renderable (sdl_webxr_get_session_state e)) eqn:Hr.
    + destruct (Z.le_gt_cases (sdl_webxr_get_view_count e) 0) as [Hc|Hc].
      * eexists. by apply BeginFrame_no_views.
      * eexists. apply BeginFrame_views; [eassumption | assumption | lia].
    + eexists. by apply BeginFrame_not_renderable.
  - intros frame. eexists. apply BeginFrame_null_session.
  - intros q. eexists. apply BeginFrame_null_frame.
Qed.

Lemma BeginFrame_world_effect_witness :
  heap requested_world !! 1%positive = Some requested_session /\
  exists r,
    SDL_WebXR_BeginFrame (with_view_count 0 env_running) (Some 1%positive)
      (Some zero_frame) requested_world
    = Done r (synced (with_view_count 0 env_running) 1%positive
                requested_session requested_world).
Proof.
  split; [reflexivity|].
  destruct (BeginFrame_world_effect (with_view_count 0 env_running) 1%positive
              requested_session zero_frame requested_world) as [H _];
    [reflexivity|].
  exact H.
Defined.

(** X11.  A mono frame: when one view is reported, the call fills view 0
    and leaves the second element of the view array exactly as the caller
    passed it. *)
Theorem BeginFrame_mono e p s f w v0 v1 :
  heap w !! p = Some s ->
  renderable (sdl_webxr_get_session_state e) = true ->
  sdl_webxr_get_view_count e = 1 ->
  views f = [v0; v1] ->
  exists f' w',
    SDL_WebXR_BeginFrame e (Some p) (Some f) w = Done (true, Some f') w' /\
    viewCount f' = 1 /\
    views f' = [fetch_view e 0 v0; v1].
Proof.
  intros Hs Hr Hc Hv.
  eexists. eexists.
  split; [apply BeginFrame_views; [eassumption | assumption | lia]|].
  simpl. rewrite Hc, Hv. split; reflexivity.
Qed.

Lemma BeginFrame_mono_witness :
  heap requested_world !! 1%positive = Some requested_session /\
  renderable (sdl_webxr_get_session_state (with_view_count 1 env_running)) = true /\
  sdl_webxr_get_view_count (with_view_count 1 env_running) = 1 /\
  views zero_frame = [zero_view; zero_view] /\
  exists f' w',
    SDL_WebXR_BeginFrame (with_view_count 1 env_running) (Some 1%positive)
      (Some zero_frame) requested_world = Done (true, Some f') w' /\
    viewCount f' = 1 /\
    views f' = [fetch_view (with_view_count 1 env_running) 0 zero_view; zero_view].
Proof.
  repeat (split; [reflexivity|]).
  apply (BeginFrame_mono (with_view_count 1 env_running) 1%positive
           requested_session zero_frame requested_world zero_view zero_view);
    reflexivity.
Defined.

(* ===================================================================== *)
(** ** Helper functions and device binding *)
(* ===================================================================== *)

(** X12.  [SDL_WebXR_GetViewCount] passes the environment's count through
    unclamped (it may be negative or above 2), and 0 for a [NULL] session;
    the view count of a frame that [SDL_WebXR_BeginFrame] delivers for the
    same session and environment is that value capped at 2. *)
Theorem GetViewCount_unclamped e p s f w :
  heap w !! p = Some s ->
  SDL_WebXR_GetViewCount e NULL = 0 /\
  SDL_WebXR_GetViewCount e (Some p) = sdl_webxr_get_view_count e /\
  forall f' w',
    SDL_WebXR_BeginFrame e (Some p) (Some f) w = Done (true, Some f') w' ->
    viewCount f' = Z.min (SDL_WebXR_GetViewCount e (Some p)) 2.
Proof.
  intros Hs. split; [reflexivity|]. split; [reflexivity|].
  intros f' w' Hrun.
  destruct (BeginFrame_succeeds_iff e p s f w Hs)
    as (ok & f1 & w1 & Hrun1 & _ & Hpost).
  rewrite Hrun in Hrun1. injection Hrun1 as <- <- <-.
  by destruct (Hpost eq_refl) as (_ & Hc & _).
Qed.

Lemma GetViewCount_unclamped_witness :
  heap requested_world !! 1%positive = Some requested_session /\
  SDL_WebXR_GetViewCount (with_view_count 7 env_running) (Some 1%positive) = 7 /\
  forall f' w',
    SDL_WebXR_BeginFrame (with_view_count 7 env_running) (Some 1%positive)
      (Some zero_frame) requested_world = Done (true, Some f') w' ->
    viewCount f' = 2.
Proof.
  split; [reflexivity|].
  destruct (GetViewCount_unclamped (with_view_count 7 env_running) 1%positive
              requested_session zero_frame requested_world)
    as (_ & H1 & H2); [reflexivity|].
  split; [exact H1 | exact H2].
Defined.

(** X13.  [SDL_WebXR_GetRenderTargetSize] returns [true] exactly when the
    session and both out-pointers are non-null and the environment's query
    succeeds; it then stores the two sizes the environment wrote.  Whenever
    it returns [false], including when the environment's query fails, the
    caller's width and height are untouched. *)
Theorem GetRenderTargetSize_all_or_nothing a session width height :
  let r := sdl_webxr_get_render_target_size a [0; 0] in
  let '(ok, width', height') :=
    SDL_WebXR_GetRenderTargetSize a session width height in
  (ok = true <->
   session <> NULL /\ width <> None /\ height <> None /\ fst r <> 0) /\
  (ok = true ->
   width' = Some (nth 0 (snd r) 0) /\ height' = Some (nth 1 (snd r) 0)) /\
  (ok = false -> width' = width /\ height' = height).
Proof.
  unfold SDL_WebXR_GetRenderTargetSize, NULL.
  destruct session as [p|], width as [x|], height as [y|]; simpl;
    try (split; [split; [discriminate | intros (? & ? & ? & ?); congruence]
                |split; [discriminate | auto]]).
  destruct (sdl_webxr_get_render_target_size a [0; 0]) as [ok size]. simpl.
  destruct (Z.eqb_spec ok 0) as [->|Hok].
  - split; [split; [discriminate | intros (_ & _ & _ & H); congruence]|].
    split; [discriminate | auto].
  - split; [split; [intros _; repeat split; congruence | reflexivity]|].
    split; [auto | discriminate].
Qed.

(** X14.  [SDL_WebXR_GetHeadTransform] queries the view transform with the
    index -1 and reports whether the query succeeded; the caller's buffer
    then holds whatever the environment left in it, also when the query
    failed.  It does not clear the matrix on failure, whereas the loop body
    of [SDL_WebXR_BeginFrame] given the same failing answer stores the zero
    matrix.  With a [NULL] session or a [NULL] matrix it returns [false]
    and the buffer is untouched. *)
Theorem GetHeadTransform_passes_through e p m session matrix :
  SDL_WebXR_GetHeadTransform e (Some p) (Some m)
  = (negb (fst (sdl_webxr_get_transform_for_view e (-1) m) =? 0),
     Some (snd (sdl_webxr_get_transform_for_view e (-1) m))) /\
  SDL_WebXR_GetHeadTransform e NULL matrix = (false, matrix) /\
  SDL_WebXR_GetHeadTransform e session None = (false, None) /\
  forall v,
    viewMatrix v = m ->
    fst (sdl_webxr_get_transform_for_view e (-1) m) = 0 ->
    viewMatrix (fetch_view e (-1) v) = zero_matrix.
Proof.
  split; [|split; [|split]].
  - simpl. by destruct (sdl_webxr_get_transform_for_view e (-1) m).
  - reflexivity.
  - by destruct session.
  - intros v <- Hfail. by rewrite fetch_view_transform, Hfail.
Qed.

(** X15.  [SDL_WebXR_BindGPUDevice] returns [true] exactly when both
    pointers are non-null, and then changes nothing; it never looks at the
    session, so it succeeds for any non-null handle, whatever the session's
    state and even when the handle is stale.  When it returns [false] the
    only change is the last error, "Invalid session or device". *)
Theorem BindGPUDevice_checks_null_only session device w :
  exists ok : bool,
    SDL_WebXR_BindGPUDevice session device w
    = Done ok (if ok then w else with_last_error "Invalid session or device" w) /\
    (ok = true <-> session <> NULL /\ device <> None).
Proof.
  unfold SDL_WebXR_BindGPUDevice, NULL.
  destruct session as [p|], device as [d|].
  - exists true. split; [reflexivity|].
    split; [intros _; split; discriminate | reflexivity].
  - exists false. split; [reflexivity|].
    split; [discriminate | intros [_ H]; congruence].
  - exists false. split; [reflexivity|].
    split; [discriminate | intros [H _]; congruence].
  - exists false. split; [reflexivity|].
    split; [discriminate | intros [H _]; congruence].
Qed.

(* ===================================================================== *)
(** ** More on the mode-support cache *)
(* ===================================================================== *)

Lemma with_env_calls_twice l1 l2 w :
  with_env_calls l2 (with_env_calls l1 w) = with_env_calls l2 w.
Proof. reflexivity. Qed.

(** X16.  There is no "probe in flight" marker: as long as no answer is
    cached for a mode (or the mode is outside the three known ones), every
    poll made while XR support is reported sends a new probe and returns
    the placeholder.  [n] polls in a row send [n] probes. *)
Theorem polls_before_answer_all_probe e m n : forall w,
  SDL_WebXR_IsAvailable e = true ->
  ~ (0 <= m < 3 /\ 0 <= mode_entry (g_mode_supported w) m) ->
  run_cache_ops (polls e m n) w
  = Done (repeat (Some (m =? SDL_WEBXR_SESSION_IMMERSIVE_VR)) n)
         (with_env_calls
            (env_calls w ++ repeat (sdl_webxr_is_session_supported m) n) w).
Proof.
  unfold polls.
  induction n as [|n IH]; intros w Ha Hu; simpl.
  - rewrite app_nil_r. by destruct w.
  - erewrite bind_Done
      by (erewrite bind_Done by (by apply IsSessionModeSupported_unknown);
          reflexivity).
    erewrite bind_Done by (apply IH; [assumption | exact Hu]).
    unfold ret, with_env_calls. simpl. rewrite <- app_assoc. reflexivity.
Qed.

Lemma polls_before_answer_all_probe_witness :
  SDL_WebXR_IsAvailable env_running = true /\
  ~ (0 <= SDL_WEBXR_SESSION_IMMERSIVE_VR < 3 /\
     0 <= mode_entry (g_mode_supported initial_world)
            SDL_WEBXR_SESSION_IMMERSIVE_VR) /\
  run_cache_ops (polls env_running SDL_WEBXR_SESSION_IMMERSIVE_VR 3) initial_world
  = Done [Some true; Some true; Some true]
      (with_env_calls
         [sdl_webxr_is_session_supported SDL_WEBXR_SESSION_IMMERSIVE_VR;
          sdl_webxr_is_session_supported SDL_WEBXR_SESSION_IMMERSIVE_VR;
          sdl_webxr_is_session_supported SDL_WEBXR_SESSION_IMMERSIVE_VR]
         initial_world).
Proof.
  assert (Hu : ~ (0 <= SDL_WEBXR_SESSION_IMMERSIVE_VR < 3 /\
                  0 <= mode_entry (g_mode_supported initial_world)
                         SDL_WEBXR_SESSION_IMMERSIVE_VR)).
  { intros [_ H]. vm_compute in H. apply H. reflexivity. }
  split; [reflexivity|]. split; [exact Hu|].
  apply (polls_before_answer_all_probe env_running
           SDL_WEBXR_SESSION_IMMERSIVE_VR 3 initial_world); [reflexivity | exact Hu].
Defined.

(** X17.  A mode outside the three known ones is never cached: an answer
    for it is dropped without touching the cache, and a poll of it made
    right after the answer, with XR support reported, still sends a probe
    and returns [false], whatever the answer was. *)
Theorem unknown_mode_never_cached e m v w :
  ~ 0 <= m < 3 ->
  SDL_WebXR_IsAvailable e = true ->
  mode_supported_callback m v w = Done tt w /\
  SDL_WebXR_IsSessionModeSupported e m w
  = Done false
      (with_env_calls (env_calls w ++ [sdl_webxr_is_session_supported m]) w).
Proof.
  intros Hm Ha.
  split; [by apply mode_supported_callback_out_of_range|].
  rewrite IsSessionModeSupported_unknown by (assumption || tauto).
  unfold SDL_WEBXR_SESSION_IMMERSIVE_VR.
  destruct (Z.eqb_spec m 1); [lia | reflexivity].
Qed.

Lemma unknown_mode_never_cached_witness :
  ~ 0 <= 3 < 3 /\
  SDL_WebXR_IsAvailable env_running = true /\
  mode_supported_callback 3 1 initial_world = Done tt initial_world /\
  SDL_WebXR_IsSessionModeSupported env_running 3 initial_world
  = Done false
      (with_env_calls (env_calls initial_world ++ [sdl_webxr_is_session_supported 3])
         initial_world).
Proof.
  assert (Hm : ~ 0 <= 3 < 3) by lia.
  split; [exact Hm|]. split; [reflexivity|].
  apply (unknown_mode_never_cached env_running 3 1 initial_world);
    [exact Hm | reflexivity].
Defined.

(** X18.  The cache keeps the latest answer, not the first: when two
    answers arrive for the same known mode, the entry holds the second.  A
    later poll with XR support reported returns "supported" for any
    positive value, "unsupported" for zero, and for a negative value treats
    the mode as unknown again: it returns the placeholder and sends a new
    probe. *)
Theorem latest_answer_wins e m v1 v2 w :
  0 <= m < 3 ->
  length (g_mode_supported w) = 3%nat ->
  SDL_WebXR_IsAvailable e = true ->
  exists w2,
    (mode_supported_callback m v1 ;;; mode_supported_callback m v2) w
    = Done tt w2 /\
    mode_entry (g_mode_supported w2) m = v2 /\
    (0 <= v2 ->
     SDL_WebXR_IsSessionModeSupported e m w2 = Done (negb (v2 =? 0)) w2) /\
    (v2 < 0 ->
     SDL_WebXR_IsSessionModeSupported e m w2
     = Done (m =? SDL_WEBXR_SESSION_IMMERSIVE_VR)
         (with_env_calls (env_calls w2 ++ [sdl_webxr_is_session_supported m]) w2)).
Proof.
  intros Hm Hl Ha.
  eexists. split.
  { erewrite bind_Done by (by apply mode_supported_callback_in_range).
    by apply mode_supported_callback_in_range. }
  assert (He : mode_entry
                 (<[Z.to_nat m := v2]> (<[Z.to_nat m := v1]> (g_mode_supported w))) m
               = v2).
  { apply mode_entry_insert_eq; [lia|]. rewrite length_insert. lia. }
  cbn [g_mode_supported with_g_mode_supported].
  split; [exact He|]. split.
  - intros Hv. rewrite IsSessionModeSupported_cached.
    + cbn [g_mode_supported with_g_mode_supported]. by rewrite He.
    + assumption.
    + assumption.
    + cbn [g_mode_supported with_g_mode_supported]. by rewrite He.
  - intros Hv. apply IsSessionModeSupported_unknown; [assumption|].
    cbn [g_mode_supported with_g_mode_supported]. rewrite He. lia.
Qed.

Lemma latest_answer_wins_witness :
  0 <= SDL_WEBXR_SESSION_IMMERSIVE_AR < 3 /\
  length (g_mode_supported initial_world) = 3%nat /\
  SDL_WebXR_IsAvailable env_running = true /\
  exists w2,
    (mode_supported_callback SDL_WEBXR_SESSION_IMMERSIVE_AR 1 ;;;
     mode_supported_callback SDL_WEBXR_SESSION_IMMERSIVE_AR 0) initial_world
    = Done tt w2 /\
    SDL_WebXR_IsSessionModeSupported env_running SDL_WEBXR_SESSION_IMMERSIVE_AR w2
    = Done false w2.
Proof.
  assert (Hm : 0 <= SDL_WEBXR_SESSION_IMMERSIVE_AR < 3)
    by (unfold SDL_WEBXR_SESSION_IMMERSIVE_AR; lia).
  split; [exact Hm|]. split; [reflexivity|]. split; [reflexivity|].
  destruct (latest_answer_wins env_running SDL_WEBXR_SESSION_IMMERSIVE_AR 1 0
              initial_world Hm eq_refl eq_refl)
    as (w2 & Hrun & _ & Hpoll & _).
  exists w2. split; [exact Hrun|]. apply Hpoll. lia.
Defined.

(* ===================================================================== *)
(** ** The test program *)
(* ===================================================================== *)

Lemma single_owner_update w p s :
  single_owner w -> g_session w = Some p ->
  single_owner (with_heap (<[p := s]> (heap w)) w).
Proof.
  unfold single_owner. simpl. intros Ho Hg. rewrite Hg in *.
  destruct Ho as [s0 Hs0]. exists s. rewrite Hs0. apply insert_singleton_eq.
Qed.

Lemma single_owner_frame w w' :
  heap w' = heap w -> g_session w' = g_session w ->
  single_owner w -> single_owner w'.
Proof. unfold single_owner. by intros -> ->. Qed.

(** With the heap owned by the slot, every callback returns and keeps it
    so; none moves the slot. *)
Lemma run_callback_total cb w :
  single_owner w ->
  exists w', run_callback cb w = Done tt w' /\
             single_owner w' /\ g_session w' = g_session w.
Proof.
  intros Ho. destruct (g_session w) as [p|] eqn:Hg.
  - destruct (single_owner_slot w p Ho Hg) as [s Hs].
    destruct cb as [r| |[m|]| |m v]; simpl.
    + eexists. split; [by apply on_session_started_live|].
      split; [by apply single_owner_update | assumption].
    + eexists. split; [by apply on_session_ended_live|].
      split; [by apply single_owner_update | assumption].
    + eexists. split; [by apply on_session_failed_live|].
      split; [|exact Hg].
      eapply single_owner_frame;
        [| |exact (single_owner_update w p
                     (stopped_session SDL_WEBXR_STATE_IDLE s) Ho Hg)];
        reflexivity.
    + destruct (stop_callbacks_keep_session p s w Hg Hs) as [_ Hf].
      eexists. split; [exact Hf|].
      split; [by apply single_owner_update | assumption].
    + exists w. auto.
    + destruct (decide (0 <= m < 3)).
      * eexists. split; [by apply mode_supported_callback_in_range|]. auto.
      * eexists. split; [by apply mode_supported_callback_out_of_range|]. auto.
  - destruct cb as [r| |m| |m v]; simpl.
    + exists w. split; [|auto].
      unfold webxr_on_session_started. by rewrite bind_get_world, Hg.
    + exists w. split; [|auto].
      unfold webxr_on_session_ended. by rewrite bind_get_world, Hg.
    + exists w. split; [|auto].
      unfold webxr_on_session_failed. by rewrite bind_get_world, Hg.
    + exists w. auto.
    + destruct (decide (0 <= m < 3)).
      * eexists. split; [by apply mode_supported_callback_in_range|]. auto.
      * eexists. split; [by apply mode_supported_callback_out_of_range|]. auto.
Qed.

Lemma TryStartXR_inv e a w :
  app_inv a w ->
  exists a' w', TryStartXR e a w = Done a' w' /\ app_inv a' w' /\
                running a' = running a.
Proof.
  intros [Hx Ho]. unfold TryStartXR.
  destruct (xrSession a) as [p|] eqn:Hxa.
  - exists a, w. repeat split; [by rewrite Hxa | assumption].
  - destruct (SDL_WebXR_IsAvailable e) eqn:Ha; simpl.
    + symmetry in Hx. unfold single_owner in Ho. rewrite Hx in Ho.
      destruct (calloc_succeeds e) eqn:Hc.
      * eexists. eexists.
        split; [erewrite bind_Done by (by apply RequestSession_fresh);
                reflexivity|].
        split; [|reflexivity].
        split; [reflexivity|].
        unfold single_owner. simpl. eexists. rewrite Ho. apply insert_empty.
      * eexists. eexists.
        split; [erewrite bind_Done by (by apply RequestSession_no_memory);
                reflexivity|].
        split; [|reflexivity].
        split; [reflexivity|]. unfold single_owner. simpl. exact Ho.
    + exists a, w. repeat split; [by rewrite Hxa | assumption].
Qed.

Lemma handle_event_inv e event a w :
  app_inv a w ->
  exists a' w', handle_event e event a w = Done a' w' /\ app_inv a' w'.
Proof.
  intros Hinv. pose proof Hinv as [Hx Ho].
  destruct event as [|[| | |]| |]; simpl.
  - eexists. eexists. split; [reflexivity | exact Hinv].
  - destruct (TryStartXR_inv e a w Hinv) as (a' & w' & H & H' & _). eauto.
  - destruct (TryStartXR_inv e a w Hinv) as (a' & w' & H & H' & _). eauto.
  - destruct (xrSession a) as [p|] eqn:Hxa.
    + symmetry in Hx.
      destruct (single_owner_slot w p Ho Hx) as [s Hs].
      destruct (single_owner_live w p s Ho Hs) as [_ Hheap].
      eexists. eexists.
      split; [erewrite bind_Done by (by eapply EndSession_live); reflexivity|].
      split; simpl.
      * unfold slot_after_end. by rewrite Hx, decide_True.
      * unfold single_owner, slot_after_end. simpl.
        rewrite Hx, decide_True by reflexivity.
        rewrite Hheap. apply delete_singleton_eq.
    + exists a, w. split; [reflexivity|]. split; [by rewrite Hxa | assumption].
  - exists a, w. auto.
  - destruct (TryStartXR_inv e a w Hinv) as (a' & w' & H & H' & _). eauto.
  - exists a, w. auto.
Qed.

Lemma handle_events_inv e events : forall a w,
  app_inv a w ->
  exists a' w', handle_events e events a w = Done a' w' /\ app_inv a' w'.
Proof.
  induction events as [|event events IH]; intros a w Hinv; simpl.
  - exists a, w. auto.
  - destruct (handle_event_inv e event a w Hinv) as (a1 & w1 & H1 & Hinv1).
    destruct (IH a1 w1 Hinv1) as (a2 & w2 & H2 & Hinv2).
    exists a2, w2. split; [|assumption].
    by erewrite bind_Done by exact H1.
Qed.

Lemma check_xr_session_inv e frame a w :
  app_inv a w ->
  exists a' r w', check_xr_session e frame a w = Done (a', r) w' /\ app_inv a' w'.
Proof.
  intros [Hx Ho]. unfold check_xr_session.
  destruct (xrSession a) as [p|] eqn:Hxa;
    [|exists a, None, w; split; [reflexivity|];
      split; [by rewrite Hxa | assumption]].
  symmetry in Hx.
  destruct (single_owner_slot w p Ho Hx) as [s Hs].
  erewrite bind_Done by (by apply GetSessionState_live).
  assert (Hos : single_owner (synced e p s w)) by (by apply single_owner_update).
  assert (Hs1 : heap (synced e p s w) !! p
                = Some (set_state (sdl_webxr_get_session_state e) s))
    by (simpl; apply lookup_insert_eq).
  destruct ((sdl_webxr_get_session_state e =? SDL_WEBXR_STATE_RUNNING)
            || (sdl_webxr_get_session_state e =? SDL_WEBXR_STATE_VISIBLE)).
  - cbn [xrSession].
    destruct (BeginFrame_world_effect e p _ frame (synced e p s w) Hs1)
      as [[r Hr] _].
    erewrite bind_Done by exact Hr.
    assert (Hos2 : single_owner
                     (synced e p (set_state (sdl_webxr_get_session_state e) s)
                        (synced e p s w)))
      by (by apply single_owner_update).
    destruct (fst r).
    + eexists. eexists. eexists.
      split; [erewrite bind_Done by reflexivity; reflexivity|].
      split; [simpl; by rewrite Hx | exact Hos2].
    + eexists. eexists. eexists. split; [reflexivity|].
      split; [simpl; by rewrite Hx | exact Hos2].
  - destruct (sdl_webxr_get_session_state e =? SDL_WEBXR_STATE_ENDED).
    + destruct (single_owner_live _ p _ Hos Hs1) as [_ Hheap].
      eexists. eexists. eexists.
      split; [erewrite bind_Done by (by eapply EndSession_live); reflexivity|].
      split; simpl.
      * unfold slot_after_end. by rewrite Hx, decide_True.
      * unfold single_owner, slot_after_end. simpl.
        rewrite Hx, decide_True by reflexivity.
        simpl in Hheap. rewrite Hheap. apply delete_singleton_eq.
    + eexists. eexists. eexists. split; [reflexivity|].
      split; [simpl; by rewrite Hxa, Hx | exact Hos].
Qed.

Lemma run_app_inv steps : forall a w,
  app_inv a w ->
  exists a' w', run_app steps a w = Done a' w' /\ app_inv a' w'.
Proof.
  induction steps as [|step steps IH]; intros a w Hinv; simpl.
  - exists a, w. auto.
  - assert (H1 : exists a1 w1, run_app_step step a w = Done a1 w1 /\ app_inv a1 w1).
    { destruct step as [e events frame|cb]; simpl.
      - destruct (handle_events_inv e events a w Hinv) as (a1 & w1 & H1 & Hinv1).
        destruct (check_xr_session_inv e frame a1 w1 Hinv1)
          as (a2 & r & w2 & H2 & Hinv2).
        exists a2, w2. split; [|assumption].
        unfold MainLoop.
        erewrite bind_Done
          by (erewrite bind_Done by exact H1; exact H2).
        reflexivity.
      - destruct Hinv as [Hx Ho].
        destruct (run_callback_total cb w Ho) as (w1 & H1 & Ho1 & Hg1).
        exists a, w1. split; [by erewrite bind_Done by exact H1|].
        split; [congruence | assumption]. }
    destruct H1 as (a1 & w1 & H1 & Hinv1).
    destruct (IH a1 w1 Hinv1) as (a2 & w2 & H2 & Hinv2).
    exists a2, w2. split; [|assumption].
    by erewrite bind_Done by exact H1.
Qed.

(** X19.  The test program uses the module safely: from a freshly loaded
    module, the start-up probe followed by any interleaving of [MainLoop]
    invocations (with any events, any answers of the environment, any
    garbage in the frame buffer) and JavaScript callbacks runs to the end
    without an invalid access or a double free.  At every point the
    program's handle equals the module's singleton slot, and the heap holds
    that session and nothing else. *)
Theorem test_program_is_memory_safe e steps :
  exists a w,
    run_program e steps initial_world = Done a w /\
    xrSession a = g_session w /\
    match g_session w with
    | None => heap w = ∅
    | Some p => exists s, heap w = {[ p := s ]}
    end.
Proof.
  unfold run_program.
  assert (H0 : exists w0, main_startup e initial_world = Done tt w0 /\
                          app_inv initial_app w0).
  { unfold main_startup. destruct (SDL_WebXR_IsAvailable e).
    - destruct (IsSessionModeSupported_footprint e SDL_WEBXR_SESSION_IMMERSIVE_VR
                  initial_world) as (b & w0 & Hp & Hh & Hg & _).
      exists w0. split; [by erewrite bind_Done by exact Hp|].
      split; [by rewrite Hg|]. unfold single_owner. by rewrite Hg, Hh.
    - exists initial_world. repeat split. }
  destruct H0 as (w0 & H0 & Hinv0).
  destruct (run_app_inv steps initial_app w0 Hinv0) as (a & w & Hrun & Hx & Ho).
  exists a, w. split; [by erewrite bind_Done by exact H0|]. auto.
Qed.

Lemma handle_events_gestures_held e events : forall a w p,
  xrSession a = Some p ->
  forallb is_gesture_or_ignored events = true ->
  handle_events e events a w = Done a w.
Proof.
  induction events as [|event events IH]; intros a w p Hx Hall; simpl.
  - reflexivity.
  - simpl in Hall. apply andb_true_iff in Hall as [Hev Hall].
    assert (H1 : handle_event e event a w = Done a w).
    { destruct event as [|[| | |]| |]; simpl in *; try discriminate;
        try reflexivity; unfold TryStartXR; by rewrite Hx. }
    erewrite bind_Done by exact H1. by apply (IH a w p).
Qed.

(** X20.  What the session check of [MainLoop] does with a live handle: it
    obtains a frame to render exactly when the environment reports RUNNING
    or VISIBLE and a positive view count (never in VISIBLE_BLURRED,
    although [SDL_WebXR_BeginFrame] would deliver one), and that frame has
    1 or 2 views, so that the program's loop over [frame.views] stays
    inside the array.  When the environment reports ENDED it frees the
    session and drops its handle; in every other state it keeps the handle
    and the session stays allocated. *)
Theorem check_xr_session_outcomes e frame a w p s :
  xrSession a = Some p ->
  heap w !! p = Some s ->
  exists a' r w',
    check_xr_session e frame a w = Done (a', r) w' /\
    (is_Some r <->
     (sdl_webxr_get_session_state e = SDL_WEBXR_STATE_RUNNING \/
      sdl_webxr_get_session_state e = SDL_WEBXR_STATE_VISIBLE) /\
     0 < sdl_webxr_get_view_count e) /\
    (forall f', r = Some f' -> 1 <= viewCount f' <= 2) /\
    (sdl_webxr_get_session_state e = SDL_WEBXR_STATE_ENDED ->
     xrSession a' = NULL /\ xrActive a' = false /\ heap w' !! p = None) /\
    (sdl_webxr_get_session_state e <> SDL_WEBXR_STATE_ENDED ->
     xrSession a' = Some p /\ is_Some (heap w' !! p)).
Proof.
  intros Hx Hs. unfold check_xr_session. rewrite Hx.
  erewrite bind_Done by (by apply GetSessionState_live).
  assert (Hs1 : heap (synced e p s w) !! p
                = Some (set_state (sdl_webxr_get_session_state e) s))
    by (simpl; apply lookup_insert_eq).
  set (st := sdl_webxr_get_session_state e) in *.
  destruct ((st =? SDL_WEBXR_STATE_RUNNING) || (st =? SDL_WEBXR_STATE_VISIBLE))
    eqn:Hrv.
  - assert (Hst : st = SDL_WEBXR_STATE_RUNNING \/ st = SDL_WEBXR_STATE_VISIBLE).
    { apply orb_true_iff in Hrv as [H|H]; apply Z.eqb_eq in H; auto. }
    assert (Hr : renderable st = true).
    { apply renderable_iff. tauto. }
    assert (Hne : st <> SDL_WEBXR_STATE_ENDED).
    { unfold SDL_WEBXR_STATE_ENDED, SDL_WEBXR_STATE_RUNNING,
        SDL_WEBXR_STATE_VISIBLE in *. lia. }
    cbn [xrSession].
    destruct (BeginFrame_succeeds_iff e p _ frame (synced e p s w) Hs1)
      as (ok & f' & w' & Hrun & Hiff & Hpost).
    fold st in Hiff.
    assert (Hw' : is_Some (heap w' !! p)).
    { destruct (BeginFrame_world e _ _ _ _ _ Hrun)
        as [-> | (q & s' & [= <-] & _ & ->)]; [eauto|].
      simpl. rewrite lookup_insert_eq. eauto. }
    erewrite bind_Done by exact Hrun. cbn [fst snd].
    destruct ok.
    + eexists. eexists. eexists.
      split; [erewrite bind_Done by reflexivity; reflexivity|].
      split; [split; [intros _; split; [exact Hst | by apply Hiff] | eauto]|].
      split; [intros f1 [= <-]; by destruct (Hpost eq_refl) as (_ & _ & H & _)|].
      split; [intros H; contradiction | auto].
    + eexists. eexists. eexists. split; [reflexivity|].
      split.
      { split; [intros [x Hx']; discriminate|].
        intros [_ Hc]. assert (false = true) by (apply Hiff; auto). discriminate. }
      split; [intros f1 H; discriminate|].
      split; [intros H; contradiction | auto].
  - assert (Hst : ~ (st = SDL_WEBXR_STATE_RUNNING \/ st = SDL_WEBXR_STATE_VISIBLE)).
    { apply orb_false_iff in Hrv as [H1 H2].
      apply Z.eqb_neq in H1. apply Z.eqb_neq in H2. tauto. }
    destruct (Z.eqb_spec st SDL_WEBXR_STATE_ENDED) as [He|He].
    + eexists. eexists. eexists.
      split; [erewrite bind_Done by (by eapply EndSession_live); reflexivity|].
      split; [split; [intros [x Hx']; discriminate | tauto]|].
      split; [intros f1 H; discriminate|].
      split; [|intros H; contradiction].
      intros _. simpl. split; [reflexivity|]. split; [reflexivity|].
      apply lookup_delete_eq.
    + eexists. eexists. eexists. split; [reflexivity|].
      split; [split; [intros [x Hx']; discriminate | tauto]|].
      split; [intros f1 H; discriminate|].
      split; [intros H; contradiction|].
      intros _. split; [exact Hx|]. simpl. rewrite lookup_insert_eq. eauto.
Qed.

Lemma check_xr_session_outcomes_witness :
  xrSession {| running := true; xrSession := Some 1%positive; xrActive := false |}
  = Some 1%positive /\
  heap requested_world !! 1%positive = Some requested_session /\
  exists a' f' w',
    check_xr_session env_running zero_frame
      {| running := true; xrSession := Some 1%positive; xrActive := false |}
      requested_world = Done (a', Some f') w' /\
    1 <= viewCount f' <= 2.
Proof.
  split; [reflexivity|]. split; [reflexivity|].
  destruct (check_xr_session_outcomes env_running zero_frame
              {| running := true; xrSession := Some 1%positive; xrActive := false |}
              requested_world 1%positive requested_session)
    as (a' & r & w' & Hrun & Hiff & Hbound & _); [reflexivity | reflexivity |].
  assert (Hr : is_Some r).
  { apply Hiff. split; [by left | simpl; lia]. }
  destruct Hr as [f' ->].
  exists a', f', w'. split; [exact Hrun|]. by apply Hbound.
Defined.

(** X21.  While the test program holds a handle it never asks for another
    session: an invocation of [MainLoop] whose events are only key presses,
    clicks or other events (no ESCAPE) and in which the environment does
    not report ENDED keeps the handle and sends no command to the
    environment.  So after a failed request, when the state is IDLE, a new
    user gesture does not retry; only ESCAPE releases the handle. *)
Theorem no_retry_while_handle_held e events frame a w p s :
  xrSession a = Some p ->
  heap w !! p = Some s ->
  forallb is_gesture_or_ignored events = true ->
  sdl_webxr_get_session_state e <> SDL_WEBXR_STATE_ENDED ->
  exists a' r w',
    MainLoop e events frame a w = Done (a', r) w' /\
    xrSession a' = Some p /\
    g_session w' = g_session w /\
    env_calls w' = env_calls w /\
    last_error w' = last_error w.
Proof.
  intros Hx Hs Hall Hne. unfold MainLoop.
  erewrite bind_Done by (by eapply handle_events_gestures_held).
  destruct (check_xr_session e frame a w) as [[a' r] w'|] eqn:Hrun.
  - exists a', r, w'. split; [reflexivity|].
    destruct (check_xr_session_outcomes e frame a w p s Hx Hs)
      as (a1 & r1 & w1 & Hrun1 & _ & _ & _ & Hkeep).
    rewrite Hrun in Hrun1. injection Hrun1 as <- <- <-.
    split; [by destruct (Hkeep Hne)|].
    revert Hrun. unfold check_xr_session. rewrite Hx.
    erewrite bind_Done by (by apply GetSessionState_live).
    destruct ((sdl_webxr_get_session_state e =? SDL_WEBXR_STATE_RUNNING)
              || (sdl_webxr_get_session_state e =? SDL_WEBXR_STATE_VISIBLE)).
    + cbn [xrSession].
      destruct (BeginFrame_world_effect e p
                  (set_state (sdl_webxr_get_session_state e) s) frame
                  (synced e p s w)) as [[r0 Hr0] _];
        [simpl; apply lookup_insert_eq|].
      erewrite bind_Done by exact Hr0.
      destruct (fst r0).
      * erewrite bind_Done by reflexivity. intros [= _ _ <-]. auto.
      * intros [= _ _ <-]. auto.
    + destruct (Z.eqb_spec (sdl_webxr_get_session_state e) SDL_WEBXR_STATE_ENDED);
        [contradiction|].
      intros [= _ _ <-]. auto.
  - destruct (check_xr_session_outcomes e frame a w p s Hx Hs)
      as (a1 & r1 & w1 & Hrun1 & _).
    rewrite Hrun in Hrun1. discriminate.
Qed.

Lemma no_retry_while_handle_held_witness :
  heap requested_world !! 1%positive = Some requested_session /\
  forallb is_gesture_or_ignored
    [SDL_EVENT_KEY_DOWN SDL_SCANCODE_SPACE; SDL_EVENT_MOUSE_BUTTON_DOWN] = true /\
  sdl_webxr_get_session_state (with_session_state SDL_WEBXR_STATE_IDLE env_running)
  <> SDL_WEBXR_STATE_ENDED /\
  exists a' r w',
    MainLoop (with_session_state SDL_WEBXR_STATE_IDLE env_running)
      [SDL_EVENT_KEY_DOWN SDL_SCANCODE_SPACE; SDL_EVENT_MOUSE_BUTTON_DOWN]
      zero_frame
      {| running := true; xrSession := Some 1%positive; xrActive := false |}
      requested_world = Done (a', r) w' /\
    xrSession a' = Some 1%positive /\
    g_session w' = g_session requested_world /\
    env_calls w' = env_calls requested_world /\
    last_error w' = last_error requested_world.
Proof.
  assert (Hne : sdl_webxr_get_session_state
                  (with_session_state SDL_WEBXR_STATE_IDLE env_running)
                <> SDL_WEBXR_STATE_ENDED) by (simpl; discriminate).
  split; [reflexivity|]. split; [reflexivity|]. split; [exact Hne|].
  apply (no_retry_while_handle_held
           (with_session_state SDL_WEBXR_STATE_IDLE env_running)
           [SDL_EVENT_KEY_DOWN SDL_SCANCODE_SPACE; SDL_EVENT_MOUSE_BUTTON_DOWN]
           zero_frame
           {| running := true; xrSession := Some 1%positive; xrActive := false |}
           requested_world 1%positive requested_session);
    [reflexivity | reflexivity | reflexivity | exact Hne].
Defined.

(* ===================================================================== *)
(** ** The two builds *)
(* ===================================================================== *)

(** X22.  A program cannot tell the build for other platforms from the
    Emscripten build running where XR support is not reported: with the
    only handle such a program can hold, [NULL], every entry point returns
    the same value in both builds, and neither ever creates a session.  The
    builds differ only in the text of the last error
    ([SDL_WebXR_RequestSession] sets a different message, and only the
    Emscripten [SDL_WebXR_BindGPUDevice] sets one). *)
Theorem stub_build_matches_unavailable_environment
    e a m r device frame width height matrix i w :
  SDL_WebXR_IsAvailable e = false ->
  SDL_WebXR_IsAvailable e = NonEmscripten.SDL_WebXR_IsAvailable /\
  SDL_WebXR_IsSessionModeSupported e m w
  = Done (NonEmscripten.SDL_WebXR_IsSessionModeSupported m) w /\
  SDL_WebXR_RequestSession e m r w
  = Done NULL (with_last_error "WebXR is not available" w) /\
  NonEmscripten.SDL_WebXR_RequestSession m r w
  = Done NULL (with_last_error "WebXR is only available on Emscripten" w) /\
  SDL_WebXR_GetSessionState e NULL w
  = Done (NonEmscripten.SDL_WebXR_GetSessionState NULL) w /\
  SDL_WebXR_EndSession NULL w = NonEmscripten.SDL_WebXR_EndSession NULL w /\
  SDL_WebXR_BindGPUDevice NULL device w
  = Done (NonEmscripten.SDL_WebXR_BindGPUDevice NULL device)
         (with_last_error "Invalid session or device" w) /\
  SDL_WebXR_BeginFrame e NULL frame w
  = Done (NonEmscripten.SDL_WebXR_BeginFrame NULL frame) w /\
  SDL_WebXR_EndFrame NULL w = NonEmscripten.SDL_WebXR_EndFrame NULL w /\
  SDL_WebXR_GetViewCount e NULL = NonEmscripten.SDL_WebXR_GetViewCount NULL /\
  SDL_WebXR_GetRenderTargetSize a NULL width height
  = NonEmscripten.SDL_WebXR_GetRenderTargetSize NULL width height /\
  SDL_WebXR_GetHeadTransform e NULL matrix
  = NonEmscripten.SDL_WebXR_GetHeadTransform NULL matrix /\
  SDL_WebXR_GetFramebuffer a NULL = NonEmscripten.SDL_WebXR_GetFramebuffer NULL /\
  SDL_WebXR_GetColorTextureForView a NULL i
  = NonEmscripten.SDL_WebXR_GetColorTextureForView NULL i /\
  SDL_WebXR_GetDepthTextureForView a NULL i
  = NonEmscripten.SDL_WebXR_GetDepthTextureForView NULL i.
Proof.
  intros Ha.
  split; [exact Ha|].
  split; [by apply IsSessionModeSupported_unavailable|].
  split; [by apply RequestSession_unavailable|].
  split; [reflexivity|].
  split; [reflexivity|]. split; [reflexivity|].
  split; [by destruct device|].
  repeat split.
Qed.

Lemma stub_build_matches_unavailable_environment_witness :
  SDL_WebXR_IsAvailable env_unavailable = false /\
  SDL_WebXR_IsSessionModeSupported env_unavailable SDL_WEBXR_SESSION_IMMERSIVE_VR
    initial_world
  = Done (NonEmscripten.SDL_WebXR_IsSessionModeSupported
            SDL_WEBXR_SESSION_IMMERSIVE_VR) initial_world /\
  SDL_WebXR_RequestSession env_unavailable SDL_WEBXR_SESSION_IMMERSIVE_VR
    SDL_WEBXR_REFSPACE_LOCAL_FLOOR initial_world
  = Done NULL (with_last_error "WebXR is not available" initial_world).
Proof.
  split; [reflexivity|].
  destruct (stub_build_matches_unavailable_environment env_unavailable aux_running
              SDL_WEBXR_SESSION_IMMERSIVE_VR SDL_WEBXR_REFSPACE_LOCAL_FLOOR
              None (Some zero_frame) None None None 0 initial_world)
    as (_ & H1 & H2 & _); [reflexivity|].
  split; [exact H1 | exact H2].
Defined.

(* ===================================================================== *)
(** ** Failed requests *)
(* ===================================================================== *)

(** X23.  [SDL_WebXR_RequestSession] always returns.  It returns [NULL]
    exactly in three cases: the environment reports no XR support, the
    singleton slot is occupied, or the allocation fails.  A failed request
    leaves the heap, the slot and the mode cache as they were and sends
    nothing to the environment, so the module can be asked again. *)
Theorem RequestSession_fails_iff e md rst w :
  exists r w',
    SDL_WebXR_RequestSession e md rst w = Done r w' /\
    (r = NULL <->
     SDL_WebXR_IsAvailable e = false \/ g_session w <> NULL \/
     calloc_succeeds e = false) /\
    (r = NULL ->
     heap w' = heap w /\ g_session w' = g_session w /\
     g_mode_supported w' = g_mode_supported w /\ env_calls w' = env_calls w).
Proof.
  destruct (SDL_WebXR_IsAvailable e) eqn:Ha.
  - destruct (g_session w) as [q|] eqn:Hg.
    + eexists. eexists.
      split; [by eapply RequestSession_occupied|].
      split; [split; [intros _; right; left; discriminate | reflexivity]|].
      intros _. simpl. auto.
    + destruct (calloc_succeeds e) eqn:Hc.
      * eexists. eexists.
        split; [by apply RequestSession_fresh|].
        split; [|discriminate].
        split; [discriminate|].
        intros [H | [H | H]]; [discriminate | by destruct H | discriminate].
      * eexists. eexists.
        split; [by apply RequestSession_no_memory|].
        split; [split; [auto | reflexivity]|].
        intros _. simpl. auto.
  - eexists. eexists.
    split; [by apply RequestSession_unavailable|].
    split; [split; [auto | reflexivity]|].
    intros _. simpl. auto.
Qed.
